(* ===== verification/_CoqProject ===== *)
-Q . S2P
Prelude.v
PyStr.v
PyIO.v
Config.v
Generator.v
Header.v
Backup.v
ZoneFile.v
ReverseZone.v
Main.v
