(* ===== verification/Prelude.v ===== *)
(** * config-dns: a verification development of [src/dnsconfig.py]

    ** The program

    [src/dnsconfig.py] is a one-shot batch script that generates the
    forward and reverse DNS zone files of a small network.  Its
    [__main__] block runs five steps in a fixed order, each step seeing
    the files the previous ones left:
    - [readConfig] (Config Parser) reads ["./host.conf"]: [ZONE_FILE:]
      and [REVERSE_ZONE_FILE:] lines name the two output paths (the last
      one wins), [HOST:] and [DOMAIN:] lines give 3-field records kept
      in file order;
    - [readHeader] (Header Loader) reads the lines of ["./header.conf"];
    - [backup] (Backup Writer) copies both declared zone files to
      ["./zoneFile.bak"] and ["./reverseFile.bak"];
    - [createZoneFile] (Zone File Generator) writes the header, a blank
      line, then for each index [x] the record [domains[x]] followed by
      [hosts[x]];
    - [createReverseZoneFile] (Reverse Zone File Generator) writes the
      header, a blank line, then one NS record per host whose name is
      [ip[2].ip[1].ip[0].in-addr.arpa.].
    The components share no state but the file system; data flows from
    [readConfig] and [readHeader] into the other three as arguments.

    ** The library (one file per part, in dependency order)

    - [Prelude] (this file): a state-and-exception monad [M S E A]
      ([ret], [bind], [throw], [lift], [catch_when] for
      [try ... except E], [for_each] for [for] loops) with its notations
      in [py_scope]; the pure error bind [rbind]; [join] (['' .join]);
      generic lemmas on loops, lists and string append; the hint
      databases [dns] and [dns_rw] and the tactics [invc], [ascii_case],
      [string_case].
    - [PyStr] (Module [PyStr]): the Python [str] operations the script
      calls: [isspace], [strip], [split()] ([split_ws]), [split(".")]
      ([split_on]), the text-mode newline decoding ([translate_newlines],
      CPython's pending-CR decoder) and [readlines].
    - [PyIO] (Module [PyIO]): the world of a run ([world]: the files as
      a [gmap string string] and the lines printed), the exceptions the
      script raises or catches ([exn]), and the primitives [open(p,"r")]
      with [readlines()] ([fd_readlines]), [open(p,"w")] ([open_w]),
      [write] ([fd_write]), [writelines] ([fd_writelines]), [print],
      [exit()] ([exit_]), list indexing ([py_index]), and the exit status
      of a run; [modifies ps c] (the frame of a computation: no file
      outside the list [ps] changes, whether it returns or raises) with
      one composition lemma per construct and widening lemmas, all in
      the hint database [dns].
    - [Config] (Module [Config]): [readConfig], lines 40-67;
      [parse_line] is one loop iteration, [parse_lines] the loop,
      [finish] the [return]; [spec_step], [zone_of], [host_of], ... its
      declarative reading.
    - [Generator] (Module [Generator]): the class [ZoneGenerator], the
      contract the [__main__] block relies on from each generator: under
      a precondition on the records, the target file ends up holding the
      header, a blank line and a text computed from the records; and on
      every path the generator changes no file but its target.
    - [Header] (Module [Header]): [readHeader], lines 1-10.
    - [Backup] (Module [Backup]): [backup], lines 13-37.
    - [ZoneFile] (Module [ZoneFile]): [createZoneFile], lines 70-103;
      [zone_step] is one loop iteration with its [try]/[except].
    - [ReverseZone] (Module [ReverseZone]): [createReverseZoneFile],
      lines 106-136; [arpa_of] is the reverse-name expression and
      [reverse_step] one loop iteration.
    - [Main] (Module [Main]): the [__main__] block, lines 139-150.

    ** What is proved

    - Config: the parser refines its declarative reading (the paths of
      the last [ZONE_FILE:]/[REVERSE_ZONE_FILE:] lines, the records in
      file order); its error paths ([UnboundLocalError] without a
      [ZONE_FILE:] line, [IndexError] on the first keyword line lacking
      a field); every path and field it returns is a non-empty token
      without whitespace.
    - Header: [readHeader] returns complete lines, then at most one
      unterminated last line.
    - Backup: it copies the decoded text of both files; the copy is
      byte-identical exactly when the file has no ["\r"]; a missing
      declared file raises [FileNotFoundError]; on every path no file
      but the two backups changes.
    - ZoneFile: the file is the header, a blank line and the records
      paired by position (an instance of [ZoneGenerator]); no other file
      changes, on every path; with fewer hosts than domains the unmatched
      domain record is still written before the exit; hosts past the
      last domain never influence the run; the line count is
      [len(header) + 1 + 2*len(domains)], and one less when the header
      does not end in a line break.
    - ReverseZone: one NS record per host, in order (an instance of
      [ZoneGenerator]); no other file changes, on every path; [a.b.c.d] gives
      [c.b.a.in-addr.arpa.]; an address with fewer than three pieces
      stops the run after the records before it.
    - Main: the whole run on a well-formed configuration, proved once
      against the [ZoneGenerator] contract and then for the two real
      generators; on every path a run changes no file but the two
      backups and the two zone files (proved from the frame law of the
      contract); a first run (no zone file yet) fails in [backup] with
      status 1 and creates nothing; a missing [header.conf] fails
      before any backup is made; a host/domain mismatch exits with
      status 0 and leaves the reverse zone file as it was; re-running
      the script on the files a successful run left changes only the
      two backups.
    - The string primitives carry the lemmas these proofs use
      ([readlines] of joined well-formed lines, [split()] yields tokens,
      [split(".")] of a dotted quad); they are not claims about the
      script on their own.

    ** Choices of the model

    Strings are Rocq [string]s read as code points 0..255.  Files are
    written on POSIX (no newline translation on write), writes reach the
    file at once (equivalent here, since every [with] block closes its
    handle before the next read), paths are compared as strings, and
    opening a file for writing always succeeds (directories are not
    modelled).  Every loop is a [for_each] over a finite list
    ([range(n)] is [seq 0 n]), so every definition is structurally
    recursive: no fuel is needed and every run terminates.

    ** Not modelled

    The traceback text of an uncaught exception (only its class and the
    exit status are kept), file permissions and I/O errors other than a
    missing file, and character encodings beyond one byte per
    character. *)

From Stdlib Require Import Ascii String List.
From stdpp Require Import base list strings gmap.

(** ** The state-and-exception monad

    Python code threads two effects: a mutable world (files, standard
    output) and exceptions that unwind to the nearest [try].  A
    computation of type [M S E A] takes the state and either returns a
    value [Ok a s'] or raises [Err e s'].  The state at the raise point
    is kept: writes already made before an exception stay on disk, as
    they do in Python. *)

Declare Scope py_scope.
Delimit Scope py_scope with py.

Inductive outcome (S E A : Type) : Type :=
  | Ok (a : A) (s : S)
  | Err (e : E) (s : S).
Arguments Ok {S E A} a s.
Arguments Err {S E A} e s.

Definition M (S E A : Type) : Type := S -> outcome S E A.

Section Monad.
Context {S E : Type}.

Definition ret {A} (a : A) : M S E A := fun s => Ok a s.

Definition bind {A B} (c : M S E A) (k : A -> M S E B) : M S E B :=
  fun s => match c s with
           | Ok a s' => k a s'
           | Err e s' => Err e s'
           end.

Definition throw {A} (e : E) : M S E A := fun s => Err e s.

Definition lift {A} (r : E + A) : M S E A :=
  match r with inl e => throw e | inr a => ret a end.

(** [try c except P as e: h e]: only exceptions accepted by [P] are
    caught; any other one keeps unwinding. *)
Definition catch_when {A} (P : E -> bool) (c : M S E A) (h : E -> M S E A)
  : M S E A :=
  fun s => match c s with
           | Ok a s' => Ok a s'
           | Err e s' => if P e then h e s' else Err e s'
           end.

(** [for x in xs: body(x)]. *)
Fixpoint for_each {A} (xs : list A) (body : A -> M S E unit) : M S E unit :=
  match xs with
  | [] => ret tt
  | x :: xs' => bind (body x) (fun _ => for_each xs' body)
  end.
End Monad.

(** The pure fragment: [E + A] with its own bind, for code that raises
    but touches no state (indexing a list, parsing a line). *)
Definition rbind {E A B} (r : E + A) (k : A -> E + B) : E + B :=
  match r with inl e => inl e | inr a => k a end.

(** [''.join(ls)], which is also what [fd.writelines(ls)] puts on disk. *)
Definition join (ls : list string) : string := String.concat "" ls.

Notation "x <- c1 ;; c2" := (bind c1 (fun x => c2))
  (at level 100, c1 at next level, right associativity) : py_scope.
Notation "c1 ;; c2" := (bind c1 (fun _ => c2))
  (at level 100, right associativity) : py_scope.
Notation "x <-? r ;; k" := (rbind r (fun x => k))
  (at level 100, r at next level, right associativity) : py_scope.

(** ** Tactics and hint databases *)

Ltac invc H := inversion H; subst; clear H.

(** Case analysis on the boolean character and string tests the models
    branch on. *)
Ltac ascii_case c d := destruct (Ascii.eqb_spec c d); subst.
Ltac string_case s t := destruct (String.eqb_spec s t); subst.

(** [dns]: the facts that make a line well formed and a list of lines
    readable back; [dns_rw]: the equations of string append and [join]. *)
Create HintDb dns discriminated.
Create Rewrite HintDb dns_rw.

(** ** Loops *)

Section Loops.
Context {S E A : Type}.

(** A loop over [xs ++ ys] runs over [xs], then over [ys] unless the
    first part raised. *)
Lemma for_each_app (xs ys : list A) (body : A -> M S E unit) (s : S) :
  for_each (xs ++ ys) body s =
  match for_each xs body s with
  | Ok _ s' => for_each ys body s'
  | Err e s' => Err e s'
  end.
Proof.
  revert s; induction xs as [|x xs IH]; intros s; [done |]; simpl.
  unfold bind. destruct (body x s); [apply IH | done].
Qed.

(** The loop stops at the first iteration that raises. *)
Lemma for_each_stop (xs zs : list A) (y : A) (body : A -> M S E unit)
    (s s' s'' : S) (e : E) :
  for_each xs body s = Ok tt s' -> body y s' = Err e s'' ->
  for_each (xs ++ y :: zs) body s = Err e s''.
Proof.
  intros Hxs Hy. rewrite for_each_app, Hxs. simpl. unfold bind. by rewrite Hy.
Qed.

(** The loop only runs its body on the elements of [xs]. *)
Lemma for_each_ext_in (xs : list A) (body body' : A -> M S E unit) :
  (forall x, In x xs -> body x = body' x) -> for_each xs body = for_each xs body'.
Proof.
  induction xs as [|x xs IH]; intros Hb; simpl; [done |].
  rewrite (Hb x) by (left; done). by rewrite IH by (intros; apply Hb; right; done).
Qed.
End Loops.

(** [[f(l[i]) for i in range(len(l))]] is [map f l]. *)
Lemma map_lookup_seq {A B} (f : A -> B) (d : B) (l : list A) :
  map (fun i => from_option f d (l !! i)) (seq 0 (length l)) = map f l.
Proof.
  induction l as [|x l IH]; [done |]. cbn [length seq map].
  rewrite <- seq_shift, map_map. simpl. by rewrite IH.
Qed.

(** ** Strings *)

(** stdpp declares [String.append] [simpl never]; these are its two
    defining equations, used by rewriting instead. *)
Lemma str_app_nil_l (t : string) : "" +:+ t = t.
Proof. reflexivity. Qed.

Lemma str_app_cons (c : ascii) (s t : string) :
  String c s +:+ t = String c (s +:+ t).
Proof. reflexivity. Qed.

Lemma str_app_nil_r (s : string) : s +:+ "" = s.
Proof. induction s as [|c s IH]; [done | by rewrite str_app_cons, IH]. Qed.

Lemma str_app_assoc (a b c : string) : a +:+ b +:+ c = (a +:+ b) +:+ c.
Proof. induction a as [|x a IH]; [done | by rewrite !str_app_cons, IH]. Qed.

Lemma str_snoc_app (a : string) (c : ascii) (s : string) :
  (a +:+ String c "") +:+ s = a +:+ String c s.
Proof. by rewrite <- str_app_assoc, str_app_cons, str_app_nil_l. Qed.

Lemma join_nil : join [] = "".
Proof. done. Qed.

Lemma join_cons (s : string) (ls : list string) : join (s :: ls) = s +:+ join ls.
Proof.
  unfold join. destruct ls; simpl; [by rewrite str_app_nil_r | done].
Qed.

Lemma join_app (l1 l2 : list string) : join (l1 ++ l2) = join l1 +:+ join l2.
Proof.
  induction l1 as [|s l1 IH]; simpl; [done |].
  by rewrite !join_cons, IH, str_app_assoc.
Qed.

#[export] Hint Rewrite str_app_nil_l str_app_cons str_app_nil_r str_snoc_app
  join_nil join_cons join_app : dns_rw.
