(* ===== verification/PyStr.v ===== *)
(** * Python [str] primitives used by [src/dnsconfig.py]

    Strings are Rocq [string]s whose characters are read as the code
    points 0..255.  The file models [str.isspace], [str.strip()],
    [str.split()] (no argument: runs of whitespace), [str.split(".")]
    (a one-character separator, empty pieces kept), the universal-newline
    translation of a file opened in text mode, and [readlines()]. *)

From Stdlib Require Import Ascii String List.
From stdpp Require Import base list strings.
From S2P Require Import Prelude.

Module PyStr.

Definition NL : ascii := "010"%char.
Definition CR : ascii := "013"%char.

(** The literals ["\n"] and ["\t"] of the Python source. *)
Definition newline : string := String NL EmptyString.
Definition tab : string := String "009"%char EmptyString.

(** The code points below 256 for which Python's [str.isspace] holds:
    TAB LF VT FF CR, the four information separators 0x1c..0x1f,
    SPACE, NEL (0x85) and NO-BREAK SPACE (0xa0). *)
Definition whitespace : list ascii :=
  map ascii_of_nat [9; 10; 11; 12; 13; 28; 29; 30; 31; 32; 133; 160].

Definition isspace (c : ascii) : bool := existsb (Ascii.eqb c) whitespace.

(** [s.lstrip()], [s.rstrip()], [s.strip()] with no argument. *)
Fixpoint lstrip (s : string) : string :=
  match s with
  | EmptyString => EmptyString
  | String c s' => if isspace c then lstrip s' else s
  end.

Fixpoint rstrip (s : string) : string :=
  match s with
  | EmptyString => EmptyString
  | String c s' =>
      let r := rstrip s' in
      if isspace c && String.eqb r "" then "" else String c r
  end.

Definition strip (s : string) : string := rstrip (lstrip s).

(** [s.split()]: the maximal runs of non-whitespace characters, in
    order.  [word] is the run read so far. *)
Fixpoint split_ws_go (s word : string) : list string :=
  match s with
  | EmptyString => if String.eqb word "" then [] else [word]
  | String c s' =>
      if isspace c then
        (if String.eqb word "" then split_ws_go s' ""
         else word :: split_ws_go s' "")
      else split_ws_go s' (word +:+ String c "")
  end.

Definition split_ws (s : string) : list string := split_ws_go s "".

(** [s.split(sep)] for a one-character separator: empty pieces are
    kept, and the result is never empty. *)
Fixpoint split_on_go (sep : ascii) (s word : string) : list string :=
  match s with
  | EmptyString => [word]
  | String c s' =>
      if Ascii.eqb c sep then word :: split_on_go sep s' ""
      else split_on_go sep s' (word +:+ String c "")
  end.

Definition split_on (sep : ascii) (s : string) : list string :=
  split_on_go sep s "".

(** Reading a file in text mode with [newline=None]: ["\r\n"] and a
    lone ["\r"] both become ["\n"].  As CPython's incremental newline
    decoder does, a ["\r"] is turned into ["\n"] at once and leaves a
    pending flag that swallows a ["\n"] right after it. *)
Fixpoint translate_go (pendingcr : bool) (s : string) : string :=
  match s with
  | EmptyString => EmptyString
  | String c s' =>
      if Ascii.eqb c NL then
        (if pendingcr then translate_go false s'
         else String NL (translate_go false s'))
      else if Ascii.eqb c CR then String NL (translate_go true s')
      else String c (translate_go false s')
  end.

Definition translate_newlines (s : string) : string := translate_go false s.

(** Membership of a character. *)
Fixpoint mem_char (c : ascii) (s : string) : bool :=
  match s with
  | EmptyString => false
  | String d s' => Ascii.eqb d c || mem_char c s'
  end.

(** Splitting the decoded text into lines, each keeping its ["\n"];
    the last line has none when the text does not end in one. *)
Fixpoint lines_go (s cur : string) : list string :=
  match s with
  | EmptyString => if String.eqb cur "" then [] else [cur]
  | String c s' =>
      if Ascii.eqb c NL then (cur +:+ String NL "") :: lines_go s' ""
      else lines_go s' (cur +:+ String c "")
  end.

(** [fd.readlines()] on a file whose bytes are [content]. *)
Definition readlines (content : string) : list string :=
  lines_go (translate_newlines content) "".

(** A line as [readlines] returns it when it is not the last: a body
    with no line break, then ["\n"]. *)
Definition body_ok (b : string) : bool := negb (mem_char NL b || mem_char CR b).

Definition line_ok (l : string) : Prop :=
  exists b, l = b +:+ String NL "" /\ body_ok b = true.

(** Characters of a token of [s.split()]: none is whitespace. *)
Fixpoint no_space (s : string) : bool :=
  match s with
  | EmptyString => true
  | String c s' => negb (isspace c) && no_space s'
  end.

Definition token_ok (t : string) : bool := negb (String.eqb t "") && no_space t.

(** The last, possibly unterminated, line: absent when empty. *)
Definition opt_line (t : string) : list string := if String.eqb t "" then [] else [t].

(** ** Lemmas *)

Lemma mem_char_app (c : ascii) (a b : string) :
  mem_char c (a +:+ b) = mem_char c a || mem_char c b.
Proof.
  induction a as [|d a IH]; [done |].
  by rewrite str_app_cons; simpl; rewrite IH, orb_assoc.
Qed.

(** The decoded text has no ["\r"] left. *)
Lemma translate_go_no_cr (p : bool) (s : string) :
  mem_char CR (translate_go p s) = false.
Proof.
  revert p; induction s as [|c s IH]; intros p; [done |]; simpl.
  ascii_case c NL; [destruct p; simpl; rewrite ?IH; done |].
  ascii_case c CR; simpl; rewrite IH; [done |].
  by destruct (Ascii.eqb_spec c CR).
Qed.

Lemma translate_go_id (s : string) :
  mem_char CR s = false -> translate_go false s = s.
Proof.
  induction s as [|c s IH]; intros H; [done |]; simpl in *.
  apply orb_false_iff in H as [Hc Hs].
  ascii_case c NL; [by rewrite IH |].
  ascii_case c CR; [done | by rewrite IH].
Qed.

(** [lines_go] cuts exactly: joining its pieces gives back its input. *)
Lemma join_lines_go (s cur : string) : join (lines_go s cur) = cur +:+ s.
Proof.
  revert cur; induction s as [|c s IH]; intros cur; simpl.
  - string_case cur ""; [done |]. by autorewrite with dns_rw.
  - ascii_case c NL.
    + by rewrite join_cons, IH, str_app_nil_l, str_snoc_app.
    + by rewrite IH, str_snoc_app.
Qed.

Lemma lines_go_body (b rest cur : string) :
  mem_char NL b = false ->
  lines_go (b +:+ String NL rest) cur = (cur +:+ b +:+ String NL "") :: lines_go rest "".
Proof.
  revert cur; induction b as [|c b IH]; intros cur Hb.
  - by rewrite !str_app_nil_l.
  - simpl in Hb. apply orb_false_iff in Hb as [Hc Hb].
    rewrite str_app_cons; simpl. rewrite Hc, IH by done.
    by rewrite str_snoc_app.
Qed.

Lemma lines_go_join_app (ls : list string) (rest : string) :
  Forall line_ok ls -> lines_go (join ls +:+ rest) "" = ls ++ lines_go rest "".
Proof.
  induction 1 as [|l ls [b [-> Hb]] _ IH]; [done |].
  apply negb_true_iff, orb_false_iff in Hb as [Hn _].
  rewrite join_cons, <- !str_app_assoc, str_app_cons, str_app_nil_l.
  by rewrite lines_go_body, IH by done.
Qed.

Lemma join_no_cr (ls : list string) :
  Forall line_ok ls -> mem_char CR (join ls) = false.
Proof.
  induction 1 as [|l ls [b [-> Hb]] _ IH]; [done |].
  apply negb_true_iff, orb_false_iff in Hb as [_ Hc].
  by rewrite join_cons, !mem_char_app, Hc, IH.
Qed.

Lemma no_space_app (a b : string) : no_space (a +:+ b) = no_space a && no_space b.
Proof.
  induction a as [|c a IH]; [done |].
  by rewrite str_app_cons; simpl; rewrite IH, andb_assoc.
Qed.

Lemma no_space_body (t : string) : no_space t = true -> body_ok t = true.
Proof.
  induction t as [|c t IH]; [done |]; simpl.
  intros [Hc Ht]%andb_prop. specialize (IH Ht).
  unfold body_ok in *; simpl.
  ascii_case c NL; [done |]. ascii_case c CR; [done |]. done.
Qed.

Lemma split_ws_go_tokens (s w : string) :
  no_space w = true -> Forall (fun t => token_ok t = true) (split_ws_go s w).
Proof.
  revert w; induction s as [|c s IH]; intros w Hw; simpl.
  - string_case w ""; constructor; [| done]. unfold token_ok.
    by destruct (String.eqb_spec w "").
  - destruct (isspace c) eqn:Hc.
    + string_case w ""; [by apply IH |]. constructor; [| by apply IH].
      unfold token_ok. by destruct (String.eqb_spec w ""); [| rewrite Hw].
    + apply IH. by rewrite no_space_app, Hw; simpl; rewrite Hc.
Qed.

(** *** Properties of the primitives *)

(** [readlines] loses nothing but the ["\r"]s: joining its lines gives
    the decoded text back. *)
Lemma join_readlines (content : string) :
  join (readlines content) = translate_newlines content.
Proof. unfold readlines. by rewrite join_lines_go, str_app_nil_l. Qed.

Lemma readlines_of_join (ls : list string) :
  Forall line_ok ls -> readlines (join ls) = ls.
Proof.
  intros Hls. unfold readlines, translate_newlines.
  rewrite translate_go_id by by apply join_no_cr.
  rewrite <- (str_app_nil_r (join ls)), lines_go_join_app by done.
  by rewrite app_nil_r.
Qed.

(** The decoding leaves a text unchanged exactly when it holds no
    ["\r"]. *)
Lemma translate_newlines_id_iff (s : string) :
  translate_newlines s = s <-> mem_char CR s = false.
Proof.
  split; [| apply translate_go_id].
  intros H. rewrite <- H. apply translate_go_no_cr.
Qed.

(** Every token of [s.split()] is non-empty and free of whitespace. *)
Lemma split_ws_tokens_ok (s : string) :
  Forall (fun t => token_ok t = true) (split_ws s).
Proof. by apply split_ws_go_tokens. Qed.

Lemma body_ok_app (a b : string) : body_ok (a +:+ b) = body_ok a && body_ok b.
Proof.
  unfold body_ok. rewrite !mem_char_app.
  by destruct (mem_char NL a), (mem_char CR a), (mem_char NL b), (mem_char CR b).
Qed.

Lemma line_ok_intro (b : string) : body_ok b = true -> line_ok (b +:+ newline).
Proof. intros Hb. by exists b. Qed.

(** The blank line [fd.write("\n")] adds. *)
Lemma line_ok_newline : line_ok newline.
Proof. by exists "". Qed.

#[export] Hint Resolve line_ok_intro line_ok_newline no_space_body : dns.
#[export] Hint Constructors Forall : dns.

Lemma lines_go_shape (s cur : string) :
  mem_char CR s = false -> body_ok cur = true ->
  exists ls t, lines_go s cur = ls ++ opt_line t /\ Forall line_ok ls /\
               body_ok t = true /\ cur +:+ s = join ls +:+ t.
Proof.
  revert cur; induction s as [|c s IH]; intros cur Hs Hcur.
  - exists [], cur. unfold opt_line; simpl. by rewrite str_app_nil_r.
  - simpl in Hs. apply orb_false_iff in Hs as [Hc Hs]. simpl.
    ascii_case c NL.
    + destruct (IH "" Hs eq_refl) as (ls & t & E & Hls & Ht & Ej).
      exists ((cur +:+ newline) :: ls), t. rewrite E. repeat split; [by constructor; [apply line_ok_intro|] | done |].
      rewrite str_app_nil_l in Ej. rewrite join_cons, <- str_app_assoc, <- Ej.
      unfold newline. by rewrite str_snoc_app.
    + assert (Hc' : body_ok (cur +:+ String c "") = true).
      { rewrite body_ok_app, Hcur. unfold body_ok; simpl. rewrite Hc.
        by destruct (Ascii.eqb_spec c NL). }
      destruct (IH _ Hs Hc') as (ls & t & E & Hls & Ht & Ej).
      exists ls, t. by rewrite E, <- Ej, str_snoc_app.
Qed.

(** What [readlines] returns: complete lines, then at most one last
    line without its ["\n"] when the text does not end in a line
    break. *)
Lemma readlines_shape (content : string) :
  exists ls t, readlines content = ls ++ opt_line t /\ Forall line_ok ls /\
               body_ok t = true /\ translate_newlines content = join ls +:+ t.
Proof.
  destruct (lines_go_shape (translate_newlines content) "" (translate_go_no_cr _ _) eq_refl)
    as (ls & t & E & Hls & Ht & Ej).
  by exists ls, t.
Qed.

Lemma split_on_go_piece (sep : ascii) (a t w : string) :
  mem_char sep a = false ->
  split_on_go sep (a +:+ String sep t) w = (w +:+ a) :: split_on_go sep t "".
Proof.
  revert w; induction a as [|c a IH]; intros w Ha.
  - rewrite str_app_nil_l, str_app_nil_r. simpl. by rewrite Ascii.eqb_refl.
  - simpl in Ha. apply orb_false_iff in Ha as [Hc Ha].
    rewrite str_app_cons; simpl. rewrite Hc, IH by done. by rewrite str_snoc_app.
Qed.

Lemma split_on_go_last (sep : ascii) (a w : string) :
  mem_char sep a = false -> split_on_go sep a w = [w +:+ a].
Proof.
  revert w; induction a as [|c a IH]; intros w Ha; simpl.
  - by rewrite str_app_nil_r.
  - simpl in Ha. apply orb_false_iff in Ha as [Hc Ha]. rewrite Hc, IH by done.
    by rewrite str_snoc_app.
Qed.

Lemma split_on_go_no_char (c sep : ascii) (s w : string) :
  mem_char c s = false -> mem_char c w = false ->
  Forall (fun x => mem_char c x = false) (split_on_go sep s w).
Proof.
  revert w; induction s as [|d s IH]; intros w Hs Hw; simpl in *; [by constructor |].
  apply orb_false_iff in Hs as [Hd Hs]. destruct (Ascii.eqb d sep).
  - constructor; [done | by apply IH].
  - apply IH; [done |]. rewrite mem_char_app, Hw; simpl. by rewrite Hd.
Qed.

Lemma no_space_no_cr (t : string) : no_space t = true -> mem_char CR t = false.
Proof.
  intros H%no_space_body. unfold body_ok in H.
  apply negb_true_iff, orb_false_iff in H. by destruct H.
Qed.

End PyStr.
