(* ===== verification/PyIO.v ===== *)
(** * The Python runtime seen by [src/dnsconfig.py]

    The world of a run: the file system as a finite map from path to
    contents (a [gmap]), and the lines printed on standard output.  The
    exceptions the script can raise or catch, and the primitives it
    calls: [open(p, "r")] with [readlines()], [open(p, "w")] with
    [write] and [writelines], [print], [exit()], list indexing [l[i]].

    Paths are compared as strings: ["./zoneFile.bak"] and
    ["zoneFile.bak"] are different keys, and directories are not
    modelled, so opening for writing always succeeds.  Files are written
    on a POSIX system ([os.linesep = "\n"]), so text-mode writes store
    their characters as they are. *)

From Stdlib Require Import Ascii String List.
From stdpp Require Import base list strings gmap.
From S2P Require Import Prelude PyStr.
Import PyStr.

Module PyIO.

Inductive exn : Type :=
  | FileNotFoundError (path : string)
  | IndexError (msg : string)
  | UnboundLocalError (var : string)
  | SystemExit.

Record world : Type := mkWorld {
  files : gmap string string;
  stdout : list string
}.

Definition py (A : Type) : Type := M world exn A.

Definition is_IndexError (e : exn) : bool :=
  match e with IndexError _ => true | _ => false end.

(** [str(e)], as [print(e)] shows it. *)
Definition str_of_exn (e : exn) : string :=
  match e with
  | FileNotFoundError p => "[Errno 2] No such file or directory: '" +:+ p +:+ "'"
  | IndexError msg => msg
  | UnboundLocalError v =>
      "cannot access local variable '" +:+ v +:+ "' where it is not associated with a value"
  | SystemExit => ""
  end.

Definition index_msg : string := "list index out of range".

(** [l[i]] for an index [0 <= i]. *)
Definition py_index {A} (l : list A) (i : nat) : exn + A :=
  match l !! i with
  | Some x => inr x
  | None => inl (IndexError index_msg)
  end.

Definition set_file (p c : string) (w : world) : world :=
  mkWorld (<[p := c]> (files w)) (stdout w).

Definition contents (p : string) (w : world) : string :=
  default "" (files w !! p).

(** [open(p, "r")] then [fd.readlines()]: a missing file raises
    [FileNotFoundError]. *)
Definition fd_readlines (p : string) : py (list string) :=
  fun w => match files w !! p with
           | Some c => Ok (readlines c) w
           | None => Err (FileNotFoundError p) w
           end.

(** [open(p, "w")]: creates or truncates. *)
Definition open_w (p : string) : py unit := fun w => Ok tt (set_file p "" w).

(** [fd.write(s)] on a handle opened for writing on [p]. *)
Definition fd_write (p s : string) : py unit :=
  fun w => Ok tt (set_file p (contents p w +:+ s) w).

(** [fd.writelines(ls)]: one [write] per element. *)
Definition fd_writelines (p : string) (ls : list string) : py unit :=
  for_each ls (fd_write p).

(** [print(s)]. *)
Definition print (s : string) : py unit :=
  fun w => Ok tt (mkWorld (files w) (stdout w ++ [s])).

(** [exit()]: raises [SystemExit] with no code. *)
Definition exit_ : py unit := throw SystemExit.

(** The exit status of the process: [0] on normal return and on
    [exit()] without a code, [1] on an uncaught exception. *)
Definition exit_status {A} (o : outcome world exn A) : nat :=
  match o with
  | Ok _ _ => 0
  | Err SystemExit _ => 0
  | Err _ _ => 1
  end.

Definition final_world {A} (o : outcome world exn A) : world :=
  match o with Ok _ w => w | Err _ w => w end.

(** A computation that changes no file outside [ps], whether it returns
    or raises: the frame of a sequence of [with open(p, "w")] blocks,
    one for each [p] in [ps]. *)
Definition modifies {A} (ps : list string) (c : py A) : Prop :=
  forall (w : world) (q : string), q ∉ ps -> files (final_world (c w)) !! q = files w !! q.

(** ** Lemmas on the primitives *)

Lemma contents_set_file_eq (p c : string) (w : world) :
  contents p (set_file p c w) = c.
Proof. unfold contents, set_file; simpl. by rewrite lookup_insert_eq. Qed.

Lemma set_file_set_file (p a b : string) (w : world) :
  set_file p a (set_file p b w) = set_file p a w.
Proof. unfold set_file; simpl. by rewrite insert_insert_eq. Qed.

Lemma fd_write_write (p a b : string) (w : world) :
  bind (fd_write p a) (fun _ => fd_write p b) w = fd_write p (a +:+ b) w.
Proof.
  unfold bind, fd_write. by rewrite contents_set_file_eq, set_file_set_file, str_app_assoc.
Qed.

(** A loop whose every iteration appends a string to the open file [p]
    appends their concatenation. *)
Lemma for_each_writes {A} (xs : list A) (body : A -> py unit) (p c : string)
    (f : A -> string) (w : world) :
  files w !! p = Some c ->
  (forall x w', In x xs -> body x w' = fd_write p (f x) w') ->
  for_each xs body w = Ok tt (set_file p (c +:+ join (map f xs)) w).
Proof.
  revert c w; induction xs as [|x xs IH]; intros c w Hp Hb; simpl.
  - rewrite str_app_nil_r. unfold ret, set_file. destruct w as [fs out]; simpl in *.
    by rewrite insert_id.
  - unfold bind. rewrite Hb by by left. unfold fd_write, contents. rewrite Hp; simpl.
    rewrite IH with (c := c +:+ f x).
    + by rewrite set_file_set_file, join_cons, str_app_assoc.
    + unfold set_file; simpl. by rewrite lookup_insert_eq.
    + intros y w' Hy. apply Hb. by right.
Qed.

Lemma fd_writelines_ok (p c : string) (ls : list string) (w : world) :
  files w !! p = Some c ->
  fd_writelines p ls w = Ok tt (set_file p (c +:+ join ls) w).
Proof.
  intros Hp. unfold fd_writelines. rewrite (for_each_writes _ _ p c id w Hp); [| done].
  by rewrite list_fmap_id.
Qed.

(** [with open(p, "w") as fd: fd.writelines(header); fd.write("\n")]
    followed by the rest [k] of the block: the opening both generators
    share. *)
Lemma open_header_then {A} (p : string) (header : list string) (k : unit -> py A)
    (w : world) :
  bind (open_w p) (fun _ => bind (fd_writelines p header) (fun _ => bind (fd_write p newline) k)) w
  = k tt (set_file p (join header +:+ newline) w).
Proof.
  unfold bind at 1, open_w.
  unfold bind at 1. rewrite (fd_writelines_ok p "").
  - unfold bind, fd_write. by rewrite contents_set_file_eq, !set_file_set_file, str_app_nil_l.
  - unfold set_file; simpl. by rewrite lookup_insert_eq.
Qed.

(** What the exception handlers of both generators do: print [str(e)]
    and a hint, then [exit()]. *)
Lemma print_print_exit (a b : string) (w : world) :
  bind (print a) (fun _ => bind (print b) (fun _ => exit_)) w =
  Err SystemExit (mkWorld (files w) (stdout w ++ [a; b])).
Proof. unfold bind, print, exit_, throw; simpl. by rewrite <- app_assoc. Qed.

(** [take n l] answers every index below [n] as [l] does. *)
Lemma py_index_take {A} (l : list A) (n i : nat) :
  i < n -> py_index (take n l) i = py_index l i.
Proof. intros Hi. unfold py_index. by rewrite lookup_take_lt. Qed.

(** *** Frames *)

Section Frames.
Context (ps : list string).

Lemma modifies_ret {A} (a : A) : modifies ps (ret a).
Proof. by intros w q _. Qed.

Lemma modifies_throw {A} (e : exn) : modifies ps (throw (A:=A) e).
Proof. by intros w q _. Qed.

Lemma modifies_lift {A} (r : exn + A) : modifies ps (lift r).
Proof. destruct r; [apply modifies_throw | apply modifies_ret]. Qed.

Lemma modifies_bind {A B} (c : py A) (k : A -> py B) :
  modifies ps c -> (forall a, modifies ps (k a)) -> modifies ps (bind c k).
Proof.
  intros Hc Hk w q Hq. specialize (Hc w q Hq). unfold bind.
  destruct (c w) as [a w'|e w'] eqn:E; simpl in *; [| done].
  by rewrite Hk.
Qed.

Lemma modifies_catch {A} (P : exn -> bool) (c : py A) (h : exn -> py A) :
  modifies ps c -> (forall e, modifies ps (h e)) -> modifies ps (catch_when P c h).
Proof.
  intros Hc Hh w q Hq. specialize (Hc w q Hq). unfold catch_when.
  destruct (c w) as [a w'|e w'] eqn:E; simpl in *; [done |].
  destruct (P e); simpl; [by rewrite Hh | done].
Qed.

Lemma modifies_for_each {A} (xs : list A) (body : A -> py unit) :
  (forall x, modifies ps (body x)) -> modifies ps (for_each xs body).
Proof.
  intros Hb. induction xs as [|x xs IH]; simpl; [apply modifies_ret |].
  by apply modifies_bind.
Qed.

Lemma modifies_fd_write (p s : string) : p ∈ ps -> modifies ps (fd_write p s).
Proof.
  intros Hp w q Hq. unfold fd_write, set_file; simpl.
  rewrite lookup_insert_ne; [done | by intros ->].
Qed.

Lemma modifies_open_w (p : string) : p ∈ ps -> modifies ps (open_w p).
Proof.
  intros Hp w q Hq. unfold open_w, set_file; simpl.
  rewrite lookup_insert_ne; [done | by intros ->].
Qed.

Lemma modifies_fd_writelines (p : string) (ls : list string) :
  p ∈ ps -> modifies ps (fd_writelines p ls).
Proof. intros Hp. apply modifies_for_each. intros. by apply modifies_fd_write. Qed.

Lemma modifies_fd_readlines (q : string) : modifies ps (fd_readlines q).
Proof. intros w r _. unfold fd_readlines. by destruct (files w !! q). Qed.

Lemma modifies_print (s : string) : modifies ps (print s).
Proof. by intros w q _. Qed.

Lemma modifies_exit : modifies ps exit_.
Proof. by intros w q _. Qed.

(** A frame may always be widened, on either side. *)
Lemma modifies_app_l {A} (qs : list string) (c : py A) :
  modifies ps c -> modifies (ps ++ qs) c.
Proof. intros Hc w q Hq. apply Hc. intros Hp. apply Hq, elem_of_app. by left. Qed.

Lemma modifies_app_r {A} (qs : list string) (c : py A) :
  modifies ps c -> modifies (qs ++ ps) c.
Proof. intros Hc w q Hq. apply Hc. intros Hp. apply Hq, elem_of_app. by right. Qed.
End Frames.

#[export] Hint Resolve modifies_ret modifies_throw modifies_lift modifies_bind
  modifies_catch modifies_for_each modifies_fd_write modifies_open_w
  modifies_fd_writelines modifies_fd_readlines modifies_print modifies_exit : dns.
#[export] Hint Resolve list_elem_of_here list_elem_of_further modifies_app_l modifies_app_r : dns.

(** Closes [q ∉ [p1; ...; pn]] from the hypotheses [q <> pi]. *)
Ltac not_in_list := repeat rewrite not_elem_of_cons; repeat split; auto using not_elem_of_nil.

End PyIO.
