(* ===== verification/Config.v ===== *)
(** * Config Parser: [readConfig] of [src/dnsconfig.py]

    [readConfig] reads ["./host.conf"] with [readlines()], splits each
    line into whitespace-separated tokens, and keeps four local
    variables: [zoneFile], [reverseZoneFile] (unbound until a
    [ZONE_FILE:] / [REVERSE_ZONE_FILE:] line assigns them), and the
    lists [hosts] and [domains] of 3-tuples.  [parse_line] is one
    iteration of its loop, [parse_lines] the loop, [finish] its
    [return], whose read of an unbound local raises
    [UnboundLocalError]. *)

From Stdlib Require Import Ascii String List.
From stdpp Require Import base list strings gmap.
From S2P Require Import Prelude PyStr PyIO.
Import PyStr PyIO.

Module Config.

Local Open Scope py_scope.

(** A [HOST:] or [DOMAIN:] record: the tuple [(line[1], line[2], line[3])]. *)
Record entry : Type := Entry {
  name : string;
  rtype : string;
  value : string
}.

(** The locals of [readConfig] while its loop runs; [None] is a local
    that has not been assigned yet. *)
Record cfg_state : Type := CfgState {
  st_zoneFile : option string;
  st_reverseZoneFile : option string;
  st_hosts : list entry;
  st_domains : list entry
}.

Definition init_state : cfg_state := CfgState None None [] [].

(** The 4-tuple [readConfig] returns. *)
Record config : Type := Cfg {
  zoneFile : string;
  reverseZoneFile : string;
  hosts : list entry;
  domains : list entry
}.

(** The body of [for line in fd.readlines()], once [line] is
    [line.strip().split()]: four independent [if]s on [line[0]]. *)
Definition parse_line (st : cfg_state) (line : list string) : exn + cfg_state :=
  match line with
  | [] => inr st
  | kw :: _ =>
      st1 <-? (if String.eqb kw "ZONE_FILE:" then
                 z <-? py_index line 1 ;;
                 inr (CfgState (Some z) (st_reverseZoneFile st) (st_hosts st) (st_domains st))
               else inr st) ;;
      st2 <-? (if String.eqb kw "REVERSE_ZONE_FILE:" then
                 r <-? py_index line 1 ;;
                 inr (CfgState (st_zoneFile st1) (Some r) (st_hosts st1) (st_domains st1))
               else inr st1) ;;
      st3 <-? (if String.eqb kw "HOST:" then
                 a <-? py_index line 1 ;; b <-? py_index line 2 ;; c <-? py_index line 3 ;;
                 inr (CfgState (st_zoneFile st2) (st_reverseZoneFile st2)
                               (st_hosts st2 ++ [Entry a b c]) (st_domains st2))
               else inr st2) ;;
      if String.eqb kw "DOMAIN:" then
        a <-? py_index line 1 ;; b <-? py_index line 2 ;; c <-? py_index line 3 ;;
        inr (CfgState (st_zoneFile st3) (st_reverseZoneFile st3)
                      (st_hosts st3) (st_domains st3 ++ [Entry a b c]))
      else inr st3
  end.

(** [line.strip().split()]. *)
Definition tokens (l : string) : list string := split_ws (strip l).

Fixpoint parse_lines (st : cfg_state) (ls : list string) : exn + cfg_state :=
  match ls with
  | [] => inr st
  | l :: ls' => st' <-? parse_line st (tokens l) ;; parse_lines st' ls'
  end.

(** [return zoneFile, reverseZoneFile, hosts, domains]: the tuple is
    built left to right, so an unbound [zoneFile] is reported first. *)
Definition finish (st : cfg_state) : exn + config :=
  match st_zoneFile st with
  | None => inl (UnboundLocalError "zoneFile")
  | Some z =>
      match st_reverseZoneFile st with
      | None => inl (UnboundLocalError "reverseZoneFile")
      | Some r => inr (Cfg z r (st_hosts st) (st_domains st))
      end
  end.

Definition host_conf : string := "./host.conf".

Definition readConfig : py config :=
  ls <- fd_readlines host_conf ;;
  lift (st <-? parse_lines init_state ls ;; finish st).

(** ** The declarative reading of a configuration

    What a line contributes, read off its tokens: [ZONE_FILE:] and
    [REVERSE_ZONE_FILE:] lines name a path, [HOST:] and [DOMAIN:] lines
    a record; anything else contributes nothing.  [line_wf] says the
    line has the fields its keyword needs. *)

Definition entry_of (args : list string) : option entry :=
  match args with
  | a :: b :: c :: _ => Some (Entry a b c)
  | _ => None
  end.

Definition zone_of (t : list string) : option string :=
  match t with
  | kw :: args => if String.eqb kw "ZONE_FILE:" then head args else None
  | [] => None
  end.

Definition reverse_of (t : list string) : option string :=
  match t with
  | kw :: args => if String.eqb kw "REVERSE_ZONE_FILE:" then head args else None
  | [] => None
  end.

Definition host_of (t : list string) : option entry :=
  match t with
  | kw :: args => if String.eqb kw "HOST:" then entry_of args else None
  | [] => None
  end.

Definition domain_of (t : list string) : option entry :=
  match t with
  | kw :: args => if String.eqb kw "DOMAIN:" then entry_of args else None
  | [] => None
  end.

Definition arity (kw : string) : nat :=
  if String.eqb kw "ZONE_FILE:" then 1
  else if String.eqb kw "REVERSE_ZONE_FILE:" then 1
  else if String.eqb kw "HOST:" then 3
  else if String.eqb kw "DOMAIN:" then 3
  else 0.

Definition line_wf (t : list string) : bool :=
  match t with
  | [] => true
  | kw :: args => Nat.leb (arity kw) (length args)
  end.

(** The last value of a list, [d] when it is empty: "the last
    assignment wins". *)
Fixpoint last_some {A} (d : option A) (l : list A) : option A :=
  match l with
  | [] => d
  | x :: l' => last_some (Some x) l'
  end.

Definition spec_step (st : cfg_state) (t : list string) : cfg_state :=
  CfgState (last_some (st_zoneFile st) (option_list (zone_of t)))
           (last_some (st_reverseZoneFile st) (option_list (reverse_of t)))
           (st_hosts st ++ option_list (host_of t))
           (st_domains st ++ option_list (domain_of t)).

Ltac kw_cases kw :=
  destruct (String.eqb_spec kw "ZONE_FILE:") as [->|?];
  [| destruct (String.eqb_spec kw "REVERSE_ZONE_FILE:") as [->|?];
  [| destruct (String.eqb_spec kw "HOST:") as [->|?];
  [| destruct (String.eqb_spec kw "DOMAIN:") as [->|?]]]].

Ltac kw_false :=
  repeat match goal with
  | H : ?k <> ?l |- context [String.eqb ?k ?l] => rewrite (proj2 (String.eqb_neq k l) H)
  end.

Definition opt_ok (o : option string) : bool :=
  match o with Some s => token_ok s | None => true end.

Definition entry_ok (e : entry) : bool :=
  token_ok (name e) && token_ok (rtype e) && token_ok (value e).

Definition st_ok (st : cfg_state) : Prop :=
  opt_ok (st_zoneFile st) = true /\ opt_ok (st_reverseZoneFile st) = true /\
  Forall (fun e => entry_ok e = true) (st_hosts st) /\
  Forall (fun e => entry_ok e = true) (st_domains st).

Definition entry_in (e : entry) (t : list string) : Prop :=
  In (name e) t /\ In (rtype e) t /\ In (value e) t.

Definition conf_tokens (c : string) : list (list string) := map tokens (readlines c).

(** The [host.conf] of the end-to-end scenario of the specification. *)
Definition example_host_conf : string :=
  "ZONE_FILE: /tmp/z" +:+ newline +:+ "REVERSE_ZONE_FILE: /tmp/r" +:+ newline +:+
  newline +:+ "DOMAIN: example.com. IN NS" +:+ newline +:+
  "HOST: ns.example.com. IN 192.168.1.1" +:+ newline.

Definition example_world : world :=
  mkWorld (<[host_conf := example_host_conf]> ∅) [].

Definition example_config : config :=
  Cfg "/tmp/z" "/tmp/r" [Entry "ns.example.com." "IN" "192.168.1.1"]
      [Entry "example.com." "IN" "NS"].

(** ** Lemmas *)

Lemma last_some_app {A} (d : option A) (l1 l2 : list A) :
  last_some d (l1 ++ l2) = last_some (last_some d l1) l2.
Proof. revert d; induction l1; intros d; simpl; auto. Qed.

Lemma omap_cons_app {A B} (f : A -> option B) (x : A) (l : list A) :
  omap f (x :: l) = option_list (f x) ++ omap f l.
Proof. simpl. by destruct (f x). Qed.

(** One well-formed line is the declarative step. *)
Lemma parse_line_wf (st : cfg_state) (t : list string) :
  line_wf t = true -> parse_line st t = inr (spec_step st t).
Proof.
  destruct t as [|kw args]; [by destruct st; unfold spec_step; simpl; rewrite !app_nil_r |].
  unfold line_wf, arity.
  kw_cases kw; kw_false; intros H;
    try (destruct args as [|a [|b [|c args]]]; simpl in H; try discriminate;
         by destruct st; unfold spec_step; simpl; rewrite ?app_nil_r).
  unfold parse_line, spec_step, zone_of, reverse_of, host_of, domain_of.
  kw_false. by destruct st; simpl; rewrite !app_nil_r.
Qed.

(** A keyword line that lacks a field raises [IndexError]. *)
Lemma parse_line_ill (st : cfg_state) (t : list string) :
  line_wf t = false -> parse_line st t = inl (IndexError index_msg).
Proof.
  destruct t as [|kw args]; [done |]. unfold line_wf, arity.
  kw_cases kw; kw_false; intros H;
    try (destruct args as [|a [|b [|c args]]]; simpl in H; try discriminate; done).
Qed.

Lemma parse_lines_app_ok (st : cfg_state) (pre post : list string) :
  Forall (fun t => line_wf t = true) (map tokens pre) ->
  parse_lines st (pre ++ post) = parse_lines (foldl spec_step st (map tokens pre)) post.
Proof.
  revert st; induction pre as [|l pre IH]; intros st Hwf; [done |].
  simpl in Hwf; invc Hwf. cbn [app parse_lines].
  rewrite parse_line_wf by done. by apply IH.
Qed.

(** *** The invariant: every path and field is a token *)

Lemma zone_of_in (t : list string) (z : string) : zone_of t = Some z -> In z t.
Proof.
  destruct t as [|kw [|a args]]; simpl; [done | by destruct (String.eqb kw _) |].
  destruct (String.eqb kw _); intros; simplify_eq; auto.
Qed.

Lemma reverse_of_in (t : list string) (z : string) : reverse_of t = Some z -> In z t.
Proof.
  destruct t as [|kw [|a args]]; simpl; [done | by destruct (String.eqb kw _) |].
  destruct (String.eqb kw _); intros; simplify_eq; auto.
Qed.

Lemma entry_of_in (kw : string) (args : list string) (e : entry) :
  entry_of args = Some e -> entry_in e (kw :: args).
Proof.
  destruct args as [|a [|b [|c args]]]; simpl; intros; simplify_eq.
  unfold entry_in; simpl; tauto.
Qed.

Lemma host_of_in (t : list string) (e : entry) : host_of t = Some e -> entry_in e t.
Proof.
  destruct t as [|kw args]; simpl; [done |].
  destruct (String.eqb kw _); [apply entry_of_in | done].
Qed.

Lemma domain_of_in (t : list string) (e : entry) : domain_of t = Some e -> entry_in e t.
Proof.
  destruct t as [|kw args]; simpl; [done |].
  destruct (String.eqb kw _); [apply entry_of_in | done].
Qed.

Section TokenFields.
Context (t : list string).
Hypothesis Ht : Forall (fun x => token_ok x = true) t.

Lemma token_in_ok (z : string) : In z t -> token_ok z = true.
Proof. exact (proj1 (List.Forall_forall _ _) Ht z). Qed.

Lemma opt_ok_step (d : option string) (o : option string) :
  opt_ok d = true -> (forall z, o = Some z -> In z t) ->
  opt_ok (last_some d (option_list o)) = true.
Proof.
  intros Hd Ho. destruct o as [z|]; simpl; [| done].
  by apply token_in_ok, Ho.
Qed.

Lemma entries_ok_step (es : list entry) (o : option entry) :
  Forall (fun e => entry_ok e = true) es -> (forall e, o = Some e -> entry_in e t) ->
  Forall (fun e => entry_ok e = true) (es ++ option_list o).
Proof.
  intros Hes Ho. apply Forall_app; split; [done |].
  destruct o as [e|]; simpl; [| done]. constructor; [| done].
  destruct (Ho e eq_refl) as (Hn & Hr & Hv). unfold entry_ok.
  by rewrite !token_in_ok.
Qed.

Lemma spec_step_ok (st : cfg_state) : st_ok st -> st_ok (spec_step st t).
Proof.
  intros (Hz & Hr & Hh & Hd). unfold spec_step; repeat split; simpl.
  - apply opt_ok_step; [done | apply zone_of_in].
  - apply opt_ok_step; [done | apply reverse_of_in].
  - apply entries_ok_step; [done | apply host_of_in].
  - apply entries_ok_step; [done | apply domain_of_in].
Qed.
End TokenFields.

Lemma parse_lines_ok (st st' : cfg_state) (ls : list string) :
  st_ok st -> parse_lines st ls = inr st' -> st_ok st'.
Proof.
  revert st; induction ls as [|l ls IH]; intros st Hst H; cbn [parse_lines] in H.
  - by invc H.
  - destruct (line_wf (tokens l)) eqn:Hl.
    + rewrite parse_line_wf in H by done. apply (IH _ (spec_step_ok _ (split_ws_tokens_ok _) _ Hst) H).
    + by rewrite parse_line_ill in H.
Qed.

(** *** Properties of [readConfig] *)

Lemma parse_lines_decl (st : cfg_state) (ls : list string) :
  Forall (fun t => line_wf t = true) (map tokens ls) ->
  parse_lines st ls =
    inr (CfgState (last_some (st_zoneFile st) (omap zone_of (map tokens ls)))
                  (last_some (st_reverseZoneFile st) (omap reverse_of (map tokens ls)))
                  (st_hosts st ++ omap host_of (map tokens ls))
                  (st_domains st ++ omap domain_of (map tokens ls))).
Proof.
  revert st; induction ls as [|l ls IH]; intros st Hwf.
  - by destruct st; simpl; rewrite !app_nil_r.
  - simpl in Hwf; invc Hwf. cbn [parse_lines rbind].
    rewrite parse_line_wf by done. cbn [rbind]. rewrite IH by done.
    unfold spec_step; cbn [st_zoneFile st_reverseZoneFile st_hosts st_domains map].
    by rewrite !(omap_cons_app _ (tokens l)), !last_some_app, !app_assoc.
Qed.

(** C5: the loop of [readConfig] refines its declarative reading: on
    well-formed lines, each path is the one of the last line that names
    it (the previous value when there is none), and the [HOST:] and
    [DOMAIN:] records are appended in file order. *)
Theorem parse_lines_refines (st : cfg_state) (ls : list string) :
  Forall (fun t => line_wf t = true) (map tokens ls) ->
  parse_lines st ls =
    inr (CfgState (last_some (st_zoneFile st) (omap zone_of (map tokens ls)))
                  (last_some (st_reverseZoneFile st) (omap reverse_of (map tokens ls)))
                  (st_hosts st ++ omap host_of (map tokens ls))
                  (st_domains st ++ omap domain_of (map tokens ls))).
Proof. apply parse_lines_decl. Qed.

(** C6: with well-formed lines, [readConfig] returns the paths of the
    last [ZONE_FILE:] / [REVERSE_ZONE_FILE:] lines and the [HOST:] and
    [DOMAIN:] records in file order. *)
Theorem readConfig_spec (w : world) (c z r : string) :
  files w !! host_conf = Some c ->
  Forall (fun t => line_wf t = true) (conf_tokens c) ->
  last_some None (omap zone_of (conf_tokens c)) = Some z ->
  last_some None (omap reverse_of (conf_tokens c)) = Some r ->
  readConfig w =
    Ok (Cfg z r (omap host_of (conf_tokens c)) (omap domain_of (conf_tokens c))) w.
Proof.
  intros Hc Hwf Hz Hr. unfold readConfig, bind, fd_readlines. rewrite Hc.
  rewrite parse_lines_decl by done.
  cbn [rbind finish st_zoneFile st_reverseZoneFile st_hosts st_domains init_state app].
  unfold conf_tokens in *. by rewrite Hz, Hr.
Qed.

(** C17: without a [ZONE_FILE:] line, the [return] of [readConfig]
    raises [UnboundLocalError] on [zoneFile]. *)
Theorem readConfig_unbound_zone (w : world) (c : string) :
  files w !! host_conf = Some c ->
  Forall (fun t => line_wf t = true) (conf_tokens c) ->
  omap zone_of (conf_tokens c) = [] ->
  readConfig w = Err (UnboundLocalError "zoneFile") w.
Proof.
  intros Hc Hwf Hz. unfold readConfig, bind, fd_readlines. rewrite Hc.
  rewrite parse_lines_decl by done.
  cbn [rbind finish st_zoneFile init_state]. unfold conf_tokens in *. by rewrite Hz.
Qed.

(** C18: the first keyword line that lacks a field makes [readConfig]
    raise [IndexError], whatever follows it. *)
Theorem readConfig_short_line (w : world) (c : string) (pre post : list string) (l : string) :
  files w !! host_conf = Some c ->
  readlines c = pre ++ l :: post ->
  Forall (fun t => line_wf t = true) (map tokens pre) ->
  line_wf (tokens l) = false ->
  readConfig w = Err (IndexError index_msg) w.
Proof.
  intros Hc Hls Hpre Hl. unfold readConfig, bind, fd_readlines. rewrite Hc, Hls.
  rewrite parse_lines_app_ok by done. cbn [parse_lines]. by rewrite parse_line_ill.
Qed.

Lemma readConfig_fields_ok (w w' : world) (cfg : config) :
  readConfig w = Ok cfg w' ->
  token_ok (zoneFile cfg) = true /\ token_ok (reverseZoneFile cfg) = true /\
  Forall (fun e => entry_ok e = true) (hosts cfg) /\
  Forall (fun e => entry_ok e = true) (domains cfg).
Proof.
  unfold readConfig, bind, fd_readlines. destruct (files w !! host_conf); [| done].
  destruct (parse_lines init_state (readlines s)) as [e|st] eqn:E; [done |].
  assert (Hst : st_ok st) by (apply (parse_lines_ok init_state st (readlines s)); [unfold st_ok; simpl; by repeat split | exact E]).
  destruct Hst as (Hz & Hr & Hh & Hd). unfold lift, finish; cbn [rbind].
  destruct (st_zoneFile st) as [z|], (st_reverseZoneFile st) as [r|]; try done.
  intros H. invc H. done.
Qed.

(** [readConfig] depends on the contents of ["./host.conf"] only. *)
Lemma readConfig_local (w w' : world) (cfg : config) :
  files w' !! host_conf = files w !! host_conf ->
  readConfig w = Ok cfg w -> readConfig w' = Ok cfg w'.
Proof.
  intros Heq. unfold readConfig, bind, fd_readlines. rewrite Heq.
  destruct (files w !! host_conf) as [c|]; [| done].
  unfold lift. destruct (rbind (parse_lines init_state (readlines c)) finish); [done |].
  unfold ret. intros H. by invc H.
Qed.

Lemma entry_ok_no_cr (e : entry) :
  entry_ok e = true ->
  mem_char CR (name e) = false /\ mem_char CR (rtype e) = false /\ mem_char CR (value e) = false.
Proof.
  unfold entry_ok, token_ok. intros H.
  repeat match goal with H : _ && _ = true |- _ => apply andb_prop in H as [? ?] end.
  by repeat split; apply no_space_no_cr.
Qed.

(** C19: every path and record field [readConfig] returns is a
    non-empty token free of whitespace. *)
Theorem readConfig_tokens_ok (w w' : world) (cfg : config) :
  readConfig w = Ok cfg w' ->
  token_ok (zoneFile cfg) = true /\ token_ok (reverseZoneFile cfg) = true /\
  Forall (fun e => entry_ok e = true) (hosts cfg) /\
  Forall (fun e => entry_ok e = true) (domains cfg).
Proof. apply readConfig_fields_ok. Qed.

(** ** Witnesses *)

Lemma parse_lines_refines_witness :
  parse_lines init_state (readlines example_host_conf) =
    inr (CfgState (Some "/tmp/z") (Some "/tmp/r") (hosts example_config)
                  (domains example_config)).
Proof.
  rewrite parse_lines_refines; [reflexivity |]. vm_compute. repeat constructor.
Defined.

Lemma readConfig_spec_witness :
  readConfig example_world = Ok example_config example_world.
Proof.
  apply (readConfig_spec example_world example_host_conf); vm_compute; [done | | done | done].
  repeat constructor.
Defined.

Lemma readConfig_unbound_zone_witness :
  readConfig (mkWorld (<[host_conf := "HOST: a b c"]> ∅) []) =
  Err (UnboundLocalError "zoneFile") (mkWorld (<[host_conf := "HOST: a b c"]> ∅) []).
Proof.
  apply (readConfig_unbound_zone _ "HOST: a b c"); vm_compute; [done | | done].
  repeat constructor.
Defined.

Lemma readConfig_short_line_witness :
  readConfig (mkWorld (<[host_conf := "HOST: a b"]> ∅) []) =
  Err (IndexError index_msg) (mkWorld (<[host_conf := "HOST: a b"]> ∅) []).
Proof.
  apply (readConfig_short_line _ "HOST: a b" [] [] "HOST: a b"); vm_compute;
    [done | done | constructor | done].
Defined.

Lemma readConfig_tokens_ok_witness :
  token_ok (zoneFile example_config) = true /\ token_ok (reverseZoneFile example_config) = true /\
  Forall (fun e => entry_ok e = true) (hosts example_config) /\
  Forall (fun e => entry_ok e = true) (domains example_config).
Proof.
  apply (readConfig_tokens_ok example_world example_world). vm_compute. reflexivity.
Defined.

End Config.
