(* ===== verification/Generator.v ===== *)
(** * The contract between the pipeline and the zone-file generators

    [createZoneFile] and [createReverseZoneFile] have the same shape and
    the same promise to the [__main__] block: under a precondition on
    the records, a run truncates the target file and leaves in it the
    header lines, a blank line, and a text computed from the records
    alone, touching no other file and printing nothing.  [ZoneGenerator]
    states that promise; [ZoneFile] and [ReverseZone] give the
    instances, and [Main] proves the pipeline against the class. *)

From Stdlib Require Import Ascii String List.
From stdpp Require Import base list strings gmap.
From S2P Require Import Prelude PyStr PyIO Config.
Import PyStr PyIO Config.

Module Generator.

Class ZoneGenerator
    (create : string -> list string -> list entry -> list entry -> py unit) := {
  (** what the records must satisfy, given [hosts] then [domains] *)
  gen_pre : list entry -> list entry -> Prop;
  (** the text written after the header and the blank line *)
  gen_records : list entry -> list entry -> string;
  gen_create_ok : forall (p : string) (header : list string) (hosts domains : list entry)
      (w : world),
    gen_pre hosts domains ->
    create p header hosts domains w =
      Ok tt (set_file p (join header +:+ newline +:+ gen_records hosts domains) w);
  (** on every path, success or exception, no file but [p] changes *)
  gen_frame : forall (p : string) (header : list string) (hosts domains : list entry),
    modifies [p] (create p header hosts domains)
}.

Arguments gen_pre create {_} hosts domains.
Arguments gen_records create {_} hosts domains.

#[export] Hint Resolve gen_frame : dns.

End Generator.
