(* ===== verification/Header.v ===== *)
(** * Header Loader: [readHeader] of [src/dnsconfig.py] (lines 1-10)

    [readHeader] opens ["./header.conf"] and returns [fd.readlines()].
    Its theorem describes the shape of that list, which decides how many
    lines the generated zone files have. *)

From Stdlib Require Import Ascii String List.
From stdpp Require Import base list strings gmap.
From S2P Require Import Prelude PyStr PyIO.
Import PyStr PyIO.

Module Header.

Definition header_conf : string := "./header.conf".

Definition readHeader : py (list string) := fd_readlines header_conf.

(** The [header.conf] of the end-to-end scenario. *)
Definition example_header : string := "; header" +:+ newline.

(** ** Lemmas *)

(** C20: [readHeader] returns the lines of ["./header.conf"]: complete
    lines ending in ["\n"], then at most one last line without it; joined
    they give the file's decoded text back. *)
Theorem readHeader_lines (w : world) (c : string) :
  files w !! header_conf = Some c ->
  exists ls t, readHeader w = Ok (ls ++ opt_line t) w /\ Forall line_ok ls /\
               body_ok t = true /\ join (ls ++ opt_line t) = translate_newlines c.
Proof.
  intros Hc. destruct (readlines_shape c) as (ls & t & E & Hls & Ht & Ej).
  exists ls, t. unfold readHeader, fd_readlines. rewrite Hc, <- E.
  repeat split; [done | done | apply join_readlines].
Qed.

Lemma readHeader_missing (w : world) :
  files w !! header_conf = None -> readHeader w = Err (FileNotFoundError header_conf) w.
Proof. intros H. unfold readHeader, fd_readlines. by rewrite H. Qed.

(** ** Witnesses *)

Lemma readHeader_lines_witness :
  exists ls t, readHeader (mkWorld (<[header_conf := example_header]> ∅) []) =
                 Ok (ls ++ opt_line t) (mkWorld (<[header_conf := example_header]> ∅) []) /\
               Forall line_ok ls /\ body_ok t = true /\
               join (ls ++ opt_line t) = translate_newlines example_header.
Proof. apply readHeader_lines. reflexivity. Defined.

End Header.
