(* ===== verification/Backup.v ===== *)
(** * Backup Writer: [backup] of [src/dnsconfig.py] (lines 13-37)

    For each path that is not [None], [backup] reads the file with
    [readlines()] and writes the lines to a fixed backup path with
    [writelines()].  Reading goes through the text-mode newline
    decoding, so the copy is the decoded text, not the bytes. *)

From Stdlib Require Import Ascii String List.
From stdpp Require Import base list strings gmap.
From S2P Require Import Prelude PyStr PyIO.
Import PyStr PyIO.

Module Backup.

Local Open Scope py_scope.

Definition zone_bak : string := "./zoneFile.bak".
Definition reverse_bak : string := "./reverseFile.bak".

Definition backup (zoneFile reverseZoneFile : option string) : py unit :=
  (match zoneFile with
   | Some z =>
       zoneBackup <- fd_readlines z ;;
       open_w zone_bak ;;
       fd_writelines zone_bak zoneBackup
   | None => ret tt
   end) ;;
  (match reverseZoneFile with
   | Some r =>
       reverseZoneBackup <- fd_readlines r ;;
       open_w reverse_bak ;;
       fd_writelines reverse_bak reverseZoneBackup
   | None => ret tt
   end).

(** A zone file with a CRLF line end, used by the witnesses. *)
Definition crlf_zone : string := "a" +:+ String CR (String NL "b").

Definition crlf_world : world := mkWorld (<["/z" := crlf_zone]> ∅) [].

(** ** Lemmas *)

(** One [with open(src) ... with open(dst, "w") ...] block. *)
Lemma copy_ok (src dst c : string) (w : world) :
  files w !! src = Some c ->
  (zb <- fd_readlines src ;; open_w dst ;; fd_writelines dst zb) w =
    Ok tt (set_file dst (translate_newlines c) w).
Proof.
  intros Hc. unfold bind at 1, fd_readlines. rewrite Hc.
  unfold bind, open_w. rewrite (fd_writelines_ok dst "").
  - by rewrite set_file_set_file, str_app_nil_l, join_readlines.
  - unfold set_file; simpl. by rewrite lookup_insert_eq.
Qed.

Lemma copy_missing (src dst : string) (w : world) :
  files w !! src = None ->
  (zb <- fd_readlines src ;; open_w dst ;; fd_writelines dst zb) w =
    Err (FileNotFoundError src) w.
Proof. intros Hc. unfold bind at 1, fd_readlines. by rewrite Hc. Qed.

Lemma backup_copies (w : world) (z r cz cr : string) :
  files w !! z = Some cz ->
  files (set_file zone_bak (translate_newlines cz) w) !! r = Some cr ->
  backup (Some z) (Some r) w =
    Ok tt (set_file reverse_bak (translate_newlines cr)
             (set_file zone_bak (translate_newlines cz) w)).
Proof.
  intros Hz Hr. unfold backup. unfold bind at 1. rewrite (copy_ok z zone_bak cz) by done.
  by apply copy_ok.
Qed.

(** C13: [backup] copies the decoded text of both files, the forward
    zone first: the second read sees the first copy already made. *)
Theorem backup_spec (w : world) (z r cz cr : string) :
  files w !! z = Some cz ->
  files (set_file zone_bak (translate_newlines cz) w) !! r = Some cr ->
  backup (Some z) (Some r) w =
    Ok tt (set_file reverse_bak (translate_newlines cr)
             (set_file zone_bak (translate_newlines cz) w)).
Proof. apply backup_copies. Qed.

(** C14: the forward backup is byte-identical to the zone file exactly
    when the file has no ["\r"]: CRLF line ends come back as LF. *)
Theorem backup_identical_iff (w : world) (z cz : string) :
  files w !! z = Some cz ->
  contents zone_bak (final_world (backup (Some z) None w)) = cz <-> mem_char CR cz = false.
Proof.
  intros Hz. unfold backup, bind at 1. rewrite (copy_ok z zone_bak cz) by done. simpl.
  rewrite contents_set_file_eq. apply translate_newlines_id_iff.
Qed.

Lemma backup_raises (w : world) (z : string) (r : option string) :
  files w !! z = None -> backup (Some z) r w = Err (FileNotFoundError z) w.
Proof. intros Hz. unfold backup, bind at 1. by rewrite copy_missing. Qed.

(** C15: a declared zone file that does not exist makes [backup] raise
    [FileNotFoundError] before anything is written. *)
Theorem backup_missing (w : world) (z : string) (r : option string) :
  files w !! z = None -> backup (Some z) r w = Err (FileNotFoundError z) w.
Proof. apply backup_raises. Qed.

Lemma backup_none (w : world) : backup None None w = Ok tt w.
Proof. reflexivity. Qed.

(** The frame of [backup], on every path. *)
Lemma backup_modifies (z r : option string) : modifies [zone_bak; reverse_bak] (backup z r).
Proof. unfold backup. destruct z, r; auto 10 with dns. Qed.

#[export] Hint Resolve backup_modifies : dns.

(** C21: [backup] changes no file but the two backups, whichever paths
    are declared and whether it completes or raises; in particular the
    zone files it copies are left as they were. *)
Theorem backup_frame (z r : option string) (w : world) (q : string) :
  q <> zone_bak -> q <> reverse_bak ->
  files (final_world (backup z r w)) !! q = files w !! q.
Proof. intros Hz Hr. apply backup_modifies. not_in_list. Qed.

(** ** Witnesses *)

Lemma backup_spec_witness :
  backup (Some "/z") (Some "/z") crlf_world =
    Ok tt (set_file reverse_bak (translate_newlines crlf_zone)
             (set_file zone_bak (translate_newlines crlf_zone) crlf_world)).
Proof. apply backup_spec; reflexivity. Defined.

(** The CRLF file is not copied byte for byte. *)
Lemma backup_identical_iff_witness :
  contents zone_bak (final_world (backup (Some "/z") None crlf_world)) <> crlf_zone.
Proof.
  rewrite (backup_identical_iff crlf_world "/z" crlf_zone); [| reflexivity].
  vm_compute. discriminate.
Defined.

Lemma backup_missing_witness :
  backup (Some "/z") None (mkWorld ∅ []) = Err (FileNotFoundError "/z") (mkWorld ∅ []).
Proof. apply backup_missing. reflexivity. Defined.

(** Both copies made, and the source file still holds its CRLF text. *)
Lemma backup_frame_witness :
  files (final_world (backup (Some "/z") (Some "/z") crlf_world)) !! "/z" = Some crlf_zone.
Proof. rewrite backup_frame; [reflexivity | discriminate | discriminate]. Defined.

End Backup.
