(* ===== verification/ZoneFile.v ===== *)
(** * Zone File Generator: [createZoneFile] of [src/dnsconfig.py] (lines 70-103)

    [createZoneFile] truncates the zone file, writes the header lines and
    a blank line, then for [x] in [range(len(domains))] writes the
    domain record [domains[x]] and the host record [hosts[x]].  An
    [IndexError] (a missing [hosts[x]]) is caught: the handler prints the
    error and a hint, and calls [exit()]. *)

From Stdlib Require Import Ascii String List.
From stdpp Require Import base list strings gmap.
From S2P Require Import Prelude PyStr PyIO Config Generator.
Import PyStr PyIO Config Generator.

Module ZoneFile.

Local Open Scope py_scope.

Definition zone_hint : string :=
  "[!] Make sure HOST and DOMAIN entries are 1:1 in the 'host.conf'".

(** [f"{domains[x][0]}\t\tIN\t{domains[x][1]}\t{domains[x][2]}\n"] *)
Definition domain_line (d : entry) : string :=
  name d +:+ tab +:+ tab +:+ "IN" +:+ tab +:+ rtype d +:+ tab +:+ value d +:+ newline.

(** [f"{hosts[x][0]}  \tIN\t{hosts[x][1]}\t{hosts[x][2]}\n"] *)
Definition host_line (h : entry) : string :=
  name h +:+ "  " +:+ tab +:+ "IN" +:+ tab +:+ rtype h +:+ tab +:+ value h +:+ newline.

(** One iteration of the loop, with its [try]/[except IndexError]. *)
Definition zone_step (zoneFile : string) (hosts domains : list entry) (x : nat) : py unit :=
  catch_when is_IndexError
    (d <- lift (py_index domains x) ;;
     fd_write zoneFile (domain_line d) ;;
     h <- lift (py_index hosts x) ;;
     fd_write zoneFile (host_line h))
    (fun e => print (str_of_exn e) ;; print zone_hint ;; exit_).

Definition createZoneFile (zoneFile : string) (header : list string)
    (hosts domains : list entry) : py unit :=
  open_w zoneFile ;;
  fd_writelines zoneFile header ;;
  fd_write zoneFile newline ;;
  for_each (seq 0 (length domains)) (zone_step zoneFile hosts domains).

(** ** Specification: the records, paired by position *)

Definition zone_lines (domains hosts : list entry) : list string :=
  concat (zip_with (fun d h => [domain_line d; host_line h]) domains hosts).

(** What iteration [x] writes when both records exist. *)
Definition pair_at (domains hosts : list entry) (x : nat) : string :=
  match domains !! x, hosts !! x with
  | Some d, Some h => domain_line d +:+ host_line h
  | _, _ => ""
  end.

(** Records and a header used by the witnesses. *)
Definition ex_ns : entry := Entry "ns.example.com." "IN" "192.168.1.1".
Definition ex_ns2 : entry := Entry "ns2.example.com." "IN" "192.168.1.2".
Definition ex_dom : entry := Entry "example.com." "IN" "NS".
Definition ex_dom2 : entry := Entry "example.org." "IN" "NS".
Definition ex_header : list string := ["; header" +:+ newline].
Definition ex_world : world := mkWorld ∅ [].

(** ** Lemmas *)

Lemma zone_step_ok (zf : string) (hosts domains : list entry) (x : nat) (w : world) :
  is_Some (domains !! x) -> is_Some (hosts !! x) ->
  zone_step zf hosts domains x w = fd_write zf (pair_at domains hosts x) w.
Proof.
  intros [d Hd] [h Hh]. unfold zone_step, catch_when, pair_at, bind, lift, py_index.
  rewrite Hd, Hh. unfold ret, fd_write; cbv beta iota.
  by rewrite contents_set_file_eq, set_file_set_file, str_app_assoc.
Qed.

Lemma zone_step_fail (zf : string) (hosts domains : list entry) (d : entry) (w : world) :
  domains !! length hosts = Some d ->
  zone_step zf hosts domains (length hosts) w =
    Err SystemExit (mkWorld (<[zf := contents zf w +:+ domain_line d]> (files w))
                            (stdout w ++ [index_msg; zone_hint])).
Proof.
  intros Hd. unfold zone_step, catch_when. unfold bind at 1 2 3, lift, py_index.
  rewrite Hd, lookup_ge_None_2 by lia. unfold ret, throw, fd_write; simpl.
  by rewrite print_print_exit.
Qed.

Lemma join_pairs (domains hosts : list entry) :
  join (map (pair_at domains hosts) (seq 0 (min (length domains) (length hosts)))) =
  join (zone_lines domains hosts).
Proof.
  revert hosts; induction domains as [|d ds IH]; intros [|h hs]; try done.
  cbn [length Nat.min seq map].
  rewrite <- seq_shift, map_map.
  change (join ((domain_line d +:+ host_line h) :: map (pair_at ds hs) (seq 0 (min (length ds) (length hs))))
          = join (zone_lines (d :: ds) (h :: hs))).
  rewrite join_cons, IH. unfold zone_lines; cbn [zip_with concat app].
  by rewrite !join_cons, str_app_assoc.
Qed.

Lemma zone_loop_ok (zf c : string) (hosts domains : list entry) (w : world) :
  files w !! zf = Some c ->
  for_each (seq 0 (min (length domains) (length hosts))) (zone_step zf hosts domains) w =
    Ok tt (set_file zf (c +:+ join (zone_lines domains hosts)) w).
Proof.
  intros Hc. rewrite (for_each_writes _ _ zf c (pair_at domains hosts) w Hc).
  - by rewrite join_pairs.
  - intros x w' Hx%in_seq. apply zone_step_ok; apply lookup_lt_is_Some_2; lia.
Qed.

Lemma length_zone_lines (domains hosts : list entry) :
  length (zone_lines domains hosts) = 2 * min (length domains) (length hosts).
Proof.
  revert hosts; induction domains as [|d ds IH]; intros [|h hs]; try (simpl; lia).
  specialize (IH hs). unfold zone_lines in *. cbn [zip_with concat app length Nat.min].
  rewrite IH. lia.
Qed.

Lemma domain_line_eq (d : entry) :
  domain_line d = (name d +:+ tab +:+ tab +:+ "IN" +:+ tab +:+ rtype d +:+ tab +:+ value d) +:+ newline.
Proof. unfold domain_line. by rewrite <- !str_app_assoc. Qed.

Lemma host_line_eq (h : entry) :
  host_line h = (name h +:+ "  " +:+ tab +:+ "IN" +:+ tab +:+ rtype h +:+ tab +:+ value h) +:+ newline.
Proof. unfold host_line. by rewrite <- !str_app_assoc. Qed.

Lemma entry_body_ok (e : entry) :
  entry_ok e = true ->
  body_ok (name e) = true /\ body_ok (rtype e) = true /\ body_ok (value e) = true.
Proof.
  unfold entry_ok, token_ok. intros H.
  repeat match goal with H : _ && _ = true |- _ => apply andb_prop in H as [? ?] end.
  by repeat split; apply no_space_body.
Qed.

Lemma domain_line_ok (d : entry) : entry_ok d = true -> line_ok (domain_line d).
Proof.
  intros Hd. destruct (entry_body_ok d Hd) as (Hn & Hr & Hv).
  rewrite domain_line_eq. apply line_ok_intro. by rewrite !body_ok_app, Hn, Hr, Hv.
Qed.

Lemma host_line_ok (h : entry) : entry_ok h = true -> line_ok (host_line h).
Proof.
  intros Hh. destruct (entry_body_ok h Hh) as (Hn & Hr & Hv).
  rewrite host_line_eq. apply line_ok_intro. by rewrite !body_ok_app, Hn, Hr, Hv.
Qed.

#[export] Hint Resolve domain_line_ok host_line_ok : dns.

Lemma zone_lines_ok (domains hosts : list entry) :
  Forall (fun e => entry_ok e = true) domains -> Forall (fun e => entry_ok e = true) hosts ->
  Forall line_ok (zone_lines domains hosts).
Proof.
  intros Hd; revert hosts; induction Hd as [|d ds Hd0 _ IH]; intros hs Hh; [constructor |].
  destruct Hh as [|h hs Hh0 Hhs]; [constructor |].
  change (Forall line_ok (domain_line d :: host_line h :: zone_lines ds hs)).
  auto with dns.
Qed.

#[export] Hint Resolve zone_lines_ok : dns.

(** The records written hold no ["\r"]. *)
Lemma zone_text_no_cr (domains hosts : list entry) :
  Forall (fun e => entry_ok e = true) domains -> Forall (fun e => entry_ok e = true) hosts ->
  mem_char CR (join (zone_lines domains hosts)) = false.
Proof. intros Hd Hh. apply join_no_cr. auto with dns. Qed.

(** *** Properties of [createZoneFile] *)

Lemma createZoneFile_run (zf : string) (header : list string) (hosts domains : list entry)
    (w : world) :
  length domains <= length hosts ->
  createZoneFile zf header hosts domains w =
    Ok tt (set_file zf (join header +:+ newline +:+ join (zone_lines domains hosts)) w).
Proof.
  intros Hlen. unfold createZoneFile. rewrite open_header_then.
  replace (length domains) with (min (length domains) (length hosts)) at 1 by lia.
  rewrite (zone_loop_ok zf (join header +:+ newline)).
  - by rewrite set_file_set_file, str_app_assoc.
  - unfold set_file; simpl. by rewrite lookup_insert_eq.
Qed.

(** C1: with at least as many hosts as domains, the zone file is the
    header, a blank line, and the domain and host records paired by
    position; hosts past the last domain are not written. *)
Theorem createZoneFile_ok (zf : string) (header : list string) (hosts domains : list entry)
    (w : world) :
  length domains <= length hosts ->
  createZoneFile zf header hosts domains w =
    Ok tt (set_file zf (join header +:+ newline +:+ join (zone_lines domains hosts)) w).
Proof. apply createZoneFile_run. Qed.

Lemma createZoneFile_stop (zf : string) (header : list string)
    (hosts domains : list entry) (d : entry) (w : world) :
  domains !! length hosts = Some d ->
  createZoneFile zf header hosts domains w =
    Err SystemExit
      (mkWorld (<[zf := join header +:+ newline +:+ join (zone_lines domains hosts)
                        +:+ domain_line d]> (files w))
               (stdout w ++ [index_msg; zone_hint])).
Proof.
  intros Hd. pose proof (lookup_lt_Some _ _ _ Hd) as Hlt.
  unfold createZoneFile. rewrite open_header_then.
  replace (seq 0 (length domains))
    with (seq 0 (min (length domains) (length hosts)) ++
          length hosts :: seq (S (length hosts)) (length domains - S (length hosts))).
  2: { replace (min (length domains) (length hosts)) with (length hosts) by lia.
       set (m := length domains - S (length hosts)).
       replace (length domains) with (length hosts + S m) by lia.
       by rewrite seq_app. }
  eapply for_each_stop.
  - apply (zone_loop_ok zf (join header +:+ newline)).
    unfold set_file; simpl. by rewrite lookup_insert_eq.
  - rewrite (zone_step_fail _ _ _ d), contents_set_file_eq by done.
    unfold set_file; simpl. by rewrite !insert_insert_eq, !str_app_assoc.
Qed.

(** C2: with fewer hosts than domains, the domain record at the first
    unmatched index is still written; then the handler prints the error
    and the 1:1 hint and exits. *)
Theorem createZoneFile_mismatch (zf : string) (header : list string)
    (hosts domains : list entry) (d : entry) (w : world) :
  domains !! length hosts = Some d ->
  createZoneFile zf header hosts domains w =
    Err SystemExit
      (mkWorld (<[zf := join header +:+ newline +:+ join (zone_lines domains hosts)
                        +:+ domain_line d]> (files w))
               (stdout w ++ [index_msg; zone_hint])).
Proof. apply createZoneFile_stop. Qed.

(** C10: with a header of complete lines and records read by
    [readConfig], the zone file has [len(header) + 1 + 2*len(domains)]
    lines. *)
Theorem createZoneFile_line_count (zf : string) (header : list string)
    (hosts domains : list entry) (w : world) :
  Forall line_ok header ->
  Forall (fun e => entry_ok e = true) domains -> Forall (fun e => entry_ok e = true) hosts ->
  length domains <= length hosts ->
  length (readlines (contents zf (final_world (createZoneFile zf header hosts domains w)))) =
    length header + 1 + 2 * length domains.
Proof.
  intros Hh Hd Hs Hlen. rewrite createZoneFile_run by done. simpl.
  rewrite contents_set_file_eq.
  change newline with (join [newline]). rewrite <- !join_app, readlines_of_join.
  - rewrite !length_app, length_zone_lines. simpl. lia.
  - apply Forall_app; split; [done |]. apply Forall_app; split; auto with dns.
Qed.

(** C11: when the header's last line has no ["\n"], the blank line is
    lost: the zone file has [len(header) + 2*len(domains)] lines. *)
Theorem createZoneFile_line_count_unterminated (zf : string) (ls : list string) (t : string)
    (hosts domains : list entry) (w : world) :
  Forall line_ok ls -> body_ok t = true -> t <> "" ->
  Forall (fun e => entry_ok e = true) domains -> Forall (fun e => entry_ok e = true) hosts ->
  length domains <= length hosts ->
  length (readlines (contents zf (final_world (createZoneFile zf (ls ++ [t]) hosts domains w)))) =
    length (ls ++ [t]) + 2 * length domains.
Proof.
  intros Hls Ht Hne Hd Hs Hlen. rewrite createZoneFile_run by done. simpl.
  rewrite contents_set_file_eq, join_app, (join_cons t), join_nil, str_app_nil_r.
  rewrite <- str_app_assoc, str_app_assoc with (a := t).
  change (t +:+ newline) with (join [t +:+ newline]).
  rewrite <- join_app, <- join_app, readlines_of_join.
  - rewrite !length_app, length_zone_lines. simpl. lia.
  - apply Forall_app; split; [done |]. apply Forall_app; split; auto with dns.
Qed.

(** The frame of [createZoneFile], on every path. *)
Lemma createZoneFile_modifies (zf : string) (header : list string) (hosts domains : list entry) :
  modifies [zf] (createZoneFile zf header hosts domains).
Proof. unfold createZoneFile, zone_step. auto 10 with dns. Qed.

(** C24: [createZoneFile] changes no file but the zone file, whether it
    completes or stops on a missing host. *)
Theorem createZoneFile_frame (zf : string) (header : list string) (hosts domains : list entry)
    (w : world) (q : string) :
  q <> zf -> files (final_world (createZoneFile zf header hosts domains w)) !! q = files w !! q.
Proof.
  intros Hq. apply createZoneFile_modifies. by rewrite list_elem_of_singleton.
Qed.



(** [createZoneFile] meets the generator contract: with at least as
    many hosts as domains it writes the paired records. *)
#[export] Instance createZoneFile_generator : ZoneGenerator createZoneFile := {|
  gen_pre hosts domains := length domains <= length hosts;
  gen_records hosts domains := join (zone_lines domains hosts);
  gen_create_ok := createZoneFile_run;
  gen_frame := createZoneFile_modifies
|}.

(** ** Witnesses *)

(** Two hosts, one domain: the second host is silently dropped. *)
Lemma createZoneFile_ok_witness :
  createZoneFile "/tmp/z" ex_header [ex_ns; ex_ns2] [ex_dom] ex_world =
    Ok tt (set_file "/tmp/z" (join ex_header +:+ newline +:+
                              domain_line ex_dom +:+ host_line ex_ns) ex_world).
Proof.
  rewrite (createZoneFile_ok "/tmp/z" ex_header [ex_ns; ex_ns2] [ex_dom] ex_world);
    [reflexivity | simpl; lia].
Defined.

Lemma createZoneFile_mismatch_witness :
  createZoneFile "/tmp/z" ex_header [ex_ns] [ex_dom; ex_dom2] ex_world =
    Err SystemExit
      (mkWorld (<["/tmp/z" := join ex_header +:+ newline +:+
                   join (zone_lines [ex_dom; ex_dom2] [ex_ns]) +:+ domain_line ex_dom2]> ∅)
               [index_msg; zone_hint]).
Proof. apply (createZoneFile_mismatch _ _ [ex_ns] [ex_dom; ex_dom2] ex_dom2). reflexivity. Defined.

Lemma createZoneFile_line_count_witness :
  length (readlines (contents "/tmp/z"
    (final_world (createZoneFile "/tmp/z" ex_header [ex_ns] [ex_dom] ex_world)))) = 4.
Proof.
  rewrite (createZoneFile_line_count "/tmp/z" ex_header [ex_ns] [ex_dom] ex_world).
  - reflexivity.
  - constructor; [by exists "; header" | constructor].
  - repeat constructor.
  - repeat constructor.
  - simpl; lia.
Defined.

Lemma createZoneFile_line_count_unterminated_witness :
  length (readlines (contents "/tmp/z"
    (final_world (createZoneFile "/tmp/z" ([] ++ ["; header"]) [ex_ns] [ex_dom] ex_world)))) = 3.
Proof.
  rewrite (createZoneFile_line_count_unterminated "/tmp/z" [] "; header" [ex_ns] [ex_dom] ex_world).
  - reflexivity.
  - constructor.
  - reflexivity.
  - discriminate.
  - repeat constructor.
  - repeat constructor.
  - simpl; lia.
Defined.

Lemma createZoneFile_frame_witness :
  files (final_world (createZoneFile "/tmp/z" ex_header [] [ex_dom]
           (mkWorld (<["/etc/hosts" := "x"]> ∅) []))) !! "/etc/hosts" = Some "x".
Proof. rewrite createZoneFile_frame; [reflexivity | discriminate]. Defined.

End ZoneFile.
