(* ===== verification/ReverseZone.v ===== *)
(** * Reverse Zone File Generator: [createReverseZoneFile] of
    [src/dnsconfig.py] (lines 106-136)

    [createReverseZoneFile] truncates the reverse zone file, writes the
    header lines and a blank line, then for each host splits its value
    (the address) on ["."] and writes an NS record for the name
    [ip[2].ip[1].ip[0].in-addr.arpa.].  An address with fewer than
    three pieces raises [IndexError], which is caught: the handler
    prints the error and a hint, and calls [exit()].  The [domains]
    argument is unused, as in the source. *)

From Stdlib Require Import Ascii String List.
From stdpp Require Import base list strings gmap.
From S2P Require Import Prelude PyStr PyIO Config Generator.
Import PyStr PyIO Config Generator.

Module ReverseZone.

Local Open Scope py_scope.

(** The string literal of lines 133-134: the backslash-newline inside
    it joins the two source lines, keeping the 20 spaces of indentation
    of the second. *)
Definition reverse_hint : string :=
  "[!] If this error occurs please look at the " +:+ "                    " +:+
  "'createReverseZoneFile()' function because this should never happen".

Definition dot : ascii := "."%char.

(** [ip[2] + "." + ip[1] + "." + ip[0] + ".in-addr.arpa."] *)
Definition arpa_of (ip : list string) : exn + string :=
  o2 <-? py_index ip 2 ;;
  o1 <-? py_index ip 1 ;;
  o0 <-? py_index ip 0 ;;
  inr (o2 +:+ "." +:+ o1 +:+ "." +:+ o0 +:+ ".in-addr.arpa.").

(** [f"{arpa} \tIN \tNS \t{hosts[x][0]}\n"] *)
Definition reverse_line (arpa : string) (h : entry) : string :=
  arpa +:+ " " +:+ tab +:+ "IN " +:+ tab +:+ "NS " +:+ tab +:+ name h +:+ newline.

Definition reverse_step (reverseZoneFile : string) (hosts : list entry) (x : nat) : py unit :=
  catch_when is_IndexError
    (h <- lift (py_index hosts x) ;;
     arpa <- lift (arpa_of (split_on dot (value h))) ;;
     fd_write reverseZoneFile (reverse_line arpa h))
    (fun e => print (str_of_exn e) ;; print reverse_hint ;; exit_).

Definition createReverseZoneFile (reverseZoneFile : string) (header : list string)
    (hosts domains : list entry) : py unit :=
  open_w reverseZoneFile ;;
  fd_writelines reverseZoneFile header ;;
  fd_write reverseZoneFile newline ;;
  for_each (seq 0 (length hosts)) (reverse_step reverseZoneFile hosts).

(** ** Specification *)

(** The reverse name of an address: its first three pieces, reversed. *)
Definition reverse_name (v : string) : option string :=
  match split_on dot v with
  | o0 :: o1 :: o2 :: _ => Some (o2 +:+ "." +:+ o1 +:+ "." +:+ o0 +:+ ".in-addr.arpa.")
  | _ => None
  end.

Definition has_reverse (h : entry) : bool :=
  match reverse_name (value h) with Some _ => true | None => false end.

Definition reverse_record (h : entry) : string :=
  match reverse_name (value h) with Some a => reverse_line a h | None => "" end.

(** Records and a header used by the witnesses. *)
Definition rv_ns : entry := Entry "ns.example.com." "IN" "192.168.1.1".
Definition rv_v6 : entry := Entry "ns6.example.com." "IN" "fd00::1".
Definition rv_header : list string := ["; header" +:+ newline].

(** ** Lemmas *)

Lemma arpa_of_spec (v : string) :
  arpa_of (split_on dot v) =
    match reverse_name v with Some a => inr a | None => inl (IndexError index_msg) end.
Proof.
  unfold reverse_name, arpa_of, py_index.
  destruct (split_on dot v) as [|o0 [|o1 [|o2 l]]]; reflexivity.
Qed.

Lemma reverse_step_ok (rzf : string) (hosts : list entry) (x : nat) (h : entry) (w : world) :
  hosts !! x = Some h -> has_reverse h = true ->
  reverse_step rzf hosts x w = fd_write rzf (reverse_record h) w.
Proof.
  intros Hh Hr. unfold has_reverse, reverse_record in *.
  unfold reverse_step, catch_when, bind at 1 2, lift at 1, py_index at 1. rewrite Hh.
  unfold ret, lift. rewrite arpa_of_spec. destruct (reverse_name (value h)); [| done].
  unfold bind, ret, fd_write. reflexivity.
Qed.

Lemma reverse_step_fail (rzf : string) (hosts : list entry) (x : nat) (h : entry) (w : world) :
  hosts !! x = Some h -> has_reverse h = false ->
  reverse_step rzf hosts x w =
    Err SystemExit (mkWorld (files w) (stdout w ++ [index_msg; reverse_hint])).
Proof.
  intros Hh Hr. unfold has_reverse in Hr.
  unfold reverse_step, catch_when, bind at 1 2, lift at 1, py_index at 1. rewrite Hh.
  unfold ret, lift. rewrite arpa_of_spec. destruct (reverse_name (value h)); [done |].
  unfold throw; simpl. apply print_print_exit.
Qed.

Lemma reverse_loop_ok (rzf c : string) (hosts : list entry) (k : nat) (w : world) :
  files w !! rzf = Some c -> k <= length hosts ->
  Forall (fun h => has_reverse h = true) (take k hosts) ->
  for_each (seq 0 k) (reverse_step rzf hosts) w =
    Ok tt (set_file rzf (c +:+ join (map reverse_record (take k hosts))) w).
Proof.
  intros Hc Hk Hall.
  rewrite (for_each_writes _ _ rzf c (fun i => from_option reverse_record "" (hosts !! i)) w Hc).
  - rewrite <- (map_lookup_seq reverse_record ""), length_take, Nat.min_l by done.
    do 4 f_equal. apply map_ext_in. intros i Hi%in_seq.
    by rewrite lookup_take_lt by lia.
  - intros x w' Hx%in_seq. destruct (lookup_lt_is_Some_2 hosts x) as [h Hh]; [lia |].
    rewrite Hh. simpl. apply reverse_step_ok; [done |].
    apply (proj1 (List.Forall_forall _ _) Hall). apply list_elem_of_In.
    apply list_elem_of_lookup_2 with x. by rewrite lookup_take_lt by lia.
Qed.

Lemma reverse_record_no_cr (h : entry) :
  entry_ok h = true -> mem_char CR (reverse_record h) = false.
Proof.
  intros (Hn & _ & Hv)%entry_ok_no_cr. unfold reverse_record, reverse_name, split_on.
  pose proof (split_on_go_no_char CR dot (value h) "" Hv eq_refl) as Hp.
  destruct (split_on_go dot (value h) "") as [|o0 [|o1 [|o2 rest]]]; try done.
  apply Forall_cons in Hp as [H0 Hp]. apply Forall_cons in Hp as [H1 Hp].
  apply Forall_cons in Hp as [H2 _].
  unfold reverse_line. rewrite !mem_char_app, H0, H1, H2, Hn. reflexivity.
Qed.

(** The records written hold no ["\r"]. *)
Lemma reverse_text_no_cr (hosts : list entry) :
  Forall (fun e => entry_ok e = true) hosts -> mem_char CR (join (map reverse_record hosts)) = false.
Proof.
  induction 1 as [|h hs Hh _ IH]; [done |]. cbn [map].
  by rewrite join_cons, mem_char_app, reverse_record_no_cr, IH.
Qed.

(** ** Properties of [createReverseZoneFile] *)

Lemma createReverseZoneFile_run (rzf : string) (header : list string)
    (hosts domains : list entry) (w : world) :
  Forall (fun h => has_reverse h = true) hosts ->
  createReverseZoneFile rzf header hosts domains w =
    Ok tt (set_file rzf (join header +:+ newline +:+ join (map reverse_record hosts)) w).
Proof.
  intros Hall. unfold createReverseZoneFile. rewrite open_header_then.
  rewrite (reverse_loop_ok rzf (join header +:+ newline) hosts (length hosts)).
  - by rewrite take_ge, set_file_set_file, str_app_assoc by done.
  - unfold set_file; simpl. by rewrite lookup_insert_eq.
  - done.
  - by rewrite take_ge.
Qed.

(** C3: when every host address has at least three pieces, the reverse
    zone file is the header, a blank line, and one NS record per host in
    the order of [hosts]. *)
Theorem createReverseZoneFile_ok (rzf : string) (header : list string)
    (hosts domains : list entry) (w : world) :
  Forall (fun h => has_reverse h = true) hosts ->
  createReverseZoneFile rzf header hosts domains w =
    Ok tt (set_file rzf (join header +:+ newline +:+ join (map reverse_record hosts)) w).
Proof. apply createReverseZoneFile_run. Qed.

(** C12: the first host whose address has fewer than three pieces stops
    the generation: the records of the hosts before it are on disk, the
    handler prints the error and the "should never happen" hint and
    exits. *)
Theorem createReverseZoneFile_malformed (rzf : string) (header : list string)
    (pre post : list entry) (h : entry) (domains : list entry) (w : world) :
  Forall (fun h => has_reverse h = true) pre -> has_reverse h = false ->
  createReverseZoneFile rzf header (pre ++ h :: post) domains w =
    Err SystemExit
      (mkWorld (<[rzf := join header +:+ newline +:+ join (map reverse_record pre)]> (files w))
               (stdout w ++ [index_msg; reverse_hint])).
Proof.
  intros Hpre Hh. unfold createReverseZoneFile. rewrite open_header_then.
  rewrite length_app; cbn [length]. rewrite seq_app; cbn [seq Nat.add].
  eapply for_each_stop.
  - apply (reverse_loop_ok rzf (join header +:+ newline)).
    + unfold set_file; simpl. by rewrite lookup_insert_eq.
    + rewrite length_app; lia.
    + by rewrite take_app_length.
  - rewrite (reverse_step_fail _ _ _ h) by (by rewrite ?list_lookup_middle).
    rewrite take_app_length. unfold set_file; simpl.
    by rewrite insert_insert_eq, !str_app_assoc.
Qed.

Lemma reverse_name_dotted_quad (a b c d : string) :
  mem_char dot a = false -> mem_char dot b = false ->
  mem_char dot c = false -> mem_char dot d = false ->
  reverse_name (a +:+ "." +:+ b +:+ "." +:+ c +:+ "." +:+ d) =
    Some (c +:+ "." +:+ b +:+ "." +:+ a +:+ ".in-addr.arpa.").
Proof.
  intros Ha Hb Hc Hd. unfold reverse_name, split_on.
  replace (a +:+ "." +:+ b +:+ "." +:+ c +:+ "." +:+ d)
    with (a +:+ String dot (b +:+ String dot (c +:+ String dot d))) by reflexivity.
  rewrite !split_on_go_piece by done.
  rewrite !str_app_nil_l. reflexivity.
Qed.

(** C4: for a dotted quad [a.b.c.d], the expression
    [ip[2] + "." + ip[1] + "." + ip[0] + ".in-addr.arpa."] on
    [a.b.c.d.split(".")] is [c.b.a.in-addr.arpa.]: the fourth piece is
    the one dropped. *)
Theorem arpa_of_dotted_quad (a b c d : string) :
  mem_char dot a = false -> mem_char dot b = false ->
  mem_char dot c = false -> mem_char dot d = false ->
  arpa_of (split_on dot (a +:+ "." +:+ b +:+ "." +:+ c +:+ "." +:+ d)) =
    inr (c +:+ "." +:+ b +:+ "." +:+ a +:+ ".in-addr.arpa.").
Proof. intros. rewrite arpa_of_spec. by rewrite reverse_name_dotted_quad. Qed.

(** The frame of [createReverseZoneFile], on every path. *)
Lemma createReverseZoneFile_modifies (rzf : string) (header : list string)
    (hosts domains : list entry) :
  modifies [rzf] (createReverseZoneFile rzf header hosts domains).
Proof. unfold createReverseZoneFile, reverse_step. auto 10 with dns. Qed.

(** C25: [createReverseZoneFile] changes no file but the reverse zone
    file, whether it completes or stops on a malformed address. *)
Theorem createReverseZoneFile_frame (rzf : string) (header : list string)
    (hosts domains : list entry) (w : world) (q : string) :
  q <> rzf ->
  files (final_world (createReverseZoneFile rzf header hosts domains w)) !! q = files w !! q.
Proof.
  intros Hq. apply createReverseZoneFile_modifies. by rewrite list_elem_of_singleton.
Qed.

(** [createReverseZoneFile] meets the generator contract: when every
    address has three pieces it writes one NS record per host. *)
#[export] Instance createReverseZoneFile_generator : ZoneGenerator createReverseZoneFile := {|
  gen_pre hosts _ := Forall (fun h => has_reverse h = true) hosts;
  gen_records hosts _ := join (map reverse_record hosts);
  gen_create_ok := createReverseZoneFile_run;
  gen_frame := createReverseZoneFile_modifies
|}.

(** ** Witnesses *)

Lemma createReverseZoneFile_ok_witness :
  createReverseZoneFile "/tmp/r" rv_header [rv_ns] [] (mkWorld ∅ []) =
    Ok tt (set_file "/tmp/r" (join rv_header +:+ newline +:+ join (map reverse_record [rv_ns]))
                    (mkWorld ∅ [])).
Proof. apply createReverseZoneFile_ok. repeat constructor. Defined.

(** An IPv6 address has a single piece: the run stops there. *)
Lemma createReverseZoneFile_malformed_witness :
  createReverseZoneFile "/tmp/r" rv_header ([rv_ns] ++ rv_v6 :: []) [] (mkWorld ∅ []) =
    Err SystemExit
      (mkWorld (<["/tmp/r" := join rv_header +:+ newline +:+ join (map reverse_record [rv_ns])]> ∅)
               ([] ++ [index_msg; reverse_hint])).
Proof. apply createReverseZoneFile_malformed; [repeat constructor | reflexivity]. Defined.

Lemma arpa_of_dotted_quad_witness :
  arpa_of (split_on dot ("192" +:+ "." +:+ "168" +:+ "." +:+ "1" +:+ "." +:+ "7")) =
    inr ("1" +:+ "." +:+ "168" +:+ "." +:+ "192" +:+ ".in-addr.arpa.").
Proof. apply arpa_of_dotted_quad; reflexivity. Defined.

Lemma createReverseZoneFile_frame_witness :
  files (final_world (createReverseZoneFile "/tmp/r" rv_header [rv_v6] []
           (mkWorld (<["/tmp/z" := "zone"]> ∅) []))) !! "/tmp/z" = Some "zone".
Proof. rewrite createReverseZoneFile_frame; [reflexivity | discriminate]. Defined.

End ReverseZone.
