(* ===== verification/Main.v ===== *)
(** * The pipeline: the [__main__] block of [src/dnsconfig.py] (lines 139-150)

    [readConfig], then [readHeader], then [backup] of both declared zone
    files, then [createZoneFile], then [createReverseZoneFile], in this
    order, each step seeing the files the previous ones left.  An
    uncaught exception ends the run with status 1; the generators'
    [exit()] ends it with status 0. *)

From Stdlib Require Import Ascii String List.
From stdpp Require Import base list strings gmap.
From S2P Require Import Prelude PyStr PyIO Config Generator Header Backup ZoneFile ReverseZone.
Import PyStr PyIO Config Generator Header Backup ZoneFile ReverseZone.

Module Main.

Local Open Scope py_scope.

Definition main : py unit :=
  cfg <- readConfig ;;
  header <- readHeader ;;
  backup (Some (zoneFile cfg)) (Some (reverseZoneFile cfg)) ;;
  createZoneFile (zoneFile cfg) header (hosts cfg) (domains cfg) ;;
  createReverseZoneFile (reverseZoneFile cfg) header (hosts cfg) (domains cfg).

(** The texts a successful run leaves in the two zone files. *)
Definition zone_text (hc : string) (cfg : config) : string :=
  join (readlines hc) +:+ newline +:+ join (zone_lines (domains cfg) (hosts cfg)).

Definition reverse_text (hc : string) (cfg : config) : string :=
  join (readlines hc) +:+ newline +:+ join (map reverse_record (hosts cfg)).

(** The world after the backups. *)
Definition backed_up (cz cr : string) (w : world) : world :=
  set_file reverse_bak (translate_newlines cr) (set_file zone_bak (translate_newlines cz) w).

(** The end-to-end scenario: [host.conf], [header.conf], and the two
    zone files when they already exist. *)
Definition scenario_world (old_zone : option string) : world :=
  mkWorld (<[host_conf := example_host_conf]> (<[header_conf := example_header]>
           (<["/tmp/r" := "old reverse"]>
           (match old_zone with Some c => <["/tmp/z" := c]> ∅ | None => ∅ end)))) [].

(** A configuration with two domains and one host. *)
Definition mismatch_conf : string :=
  "ZONE_FILE: /tmp/z" +:+ newline +:+ "REVERSE_ZONE_FILE: /tmp/r" +:+ newline +:+
  "DOMAIN: example.com. IN NS" +:+ newline +:+ "DOMAIN: example.org. IN NS" +:+ newline +:+
  "HOST: ns.example.com. IN 192.168.1.1" +:+ newline.

Definition mismatch_world : world :=
  mkWorld (<[host_conf := mismatch_conf]> (<[header_conf := example_header]>
           (<["/tmp/r" := "old reverse"]> (<["/tmp/z" := "old zone"]> ∅)))) [].

Definition mismatch_config : config :=
  Cfg "/tmp/z" "/tmp/r" [Entry "ns.example.com." "IN" "192.168.1.1"]
      [Entry "example.com." "IN" "NS"; Entry "example.org." "IN" "NS"].

(** ** Lemmas *)

Section Run.
Context (w : world) (cfg : config) (hc cz cr : string).
Hypothesis Hcfg : readConfig w = Ok cfg w.
Hypothesis Hhc : files w !! header_conf = Some hc.
Hypothesis Hz : files w !! zoneFile cfg = Some cz.
Hypothesis Hr : files (set_file zone_bak (translate_newlines cz) w) !! reverseZoneFile cfg = Some cr.

Lemma main_prefix {A} (k : config -> list string -> unit -> py A) :
  bind readConfig (fun cfg' => bind readHeader (fun header =>
    bind (backup (Some (zoneFile cfg')) (Some (reverseZoneFile cfg'))) (k cfg' header))) w
  = k cfg (readlines hc) tt (backed_up cz cr w).
Proof.
  unfold bind at 1. rewrite Hcfg. unfold bind at 1, readHeader, fd_readlines. rewrite Hhc.
  unfold bind. rewrite (backup_copies w _ _ cz cr) by done. reflexivity.
Qed.

(** The pipeline against the generator contract alone: whatever the
    two generators are, when their preconditions hold the run leaves the
    backups and the two texts they promise. *)
Lemma main_run `{GZ : ZoneGenerator createZoneFile} `{GR : ZoneGenerator createReverseZoneFile} :
  gen_pre createZoneFile (hosts cfg) (domains cfg) ->
  gen_pre createReverseZoneFile (hosts cfg) (domains cfg) ->
  main w =
    Ok tt (set_file (reverseZoneFile cfg)
             (join (readlines hc) +:+ newline +:+
              gen_records createReverseZoneFile (hosts cfg) (domains cfg))
           (set_file (zoneFile cfg)
             (join (readlines hc) +:+ newline +:+
              gen_records createZoneFile (hosts cfg) (domains cfg))
           (backed_up cz cr w))).
Proof.
  intros Hz' Hr'. unfold main. rewrite (main_prefix (fun c h _ => _)).
  unfold bind. rewrite gen_create_ok by done. by rewrite gen_create_ok.
Qed.

(** C7: a run on a well-formed configuration rewrites both zone files
    from the header and the records, after saving their previous
    decoded text in the two backup files. *)
Theorem main_ok :
  length (domains cfg) <= length (hosts cfg) ->
  Forall (fun h => has_reverse h = true) (hosts cfg) ->
  main w =
    Ok tt (set_file (reverseZoneFile cfg)
             (join (readlines hc) +:+ newline +:+ join (map reverse_record (hosts cfg)))
           (set_file (zoneFile cfg)
             (join (readlines hc) +:+ newline +:+ join (zone_lines (domains cfg) (hosts cfg)))
           (backed_up cz cr w))).
Proof.
  intros Hlen Hrev. by rewrite main_run.
Qed.

(** C16: when [host.conf] has fewer hosts than domains, the run stops in
    [createZoneFile] with status 0: the reverse zone file is never
    regenerated and keeps its old contents. *)
Theorem main_mismatch (d : entry) :
  domains cfg !! length (hosts cfg) = Some d ->
  main w =
    Err SystemExit
      (mkWorld (<[zoneFile cfg := join (readlines hc) +:+ newline +:+
                    join (zone_lines (domains cfg) (hosts cfg)) +:+ domain_line d]>
                  (files (backed_up cz cr w)))
               (stdout w ++ [index_msg; zone_hint])).
Proof.
  intros Hd. unfold main. rewrite (main_prefix (fun c h _ => _)).
  unfold bind at 1. by rewrite (createZoneFile_stop _ _ _ _ d).
Qed.
End Run.

(** The six paths of a run, pairwise distinct: what a re-run needs. *)
Lemma nodup_paths (a b c d e f : string) :
  NoDup [a; b; c; d; e; f] ->
  e <> a /\ e <> b /\ e <> c /\ e <> d /\ f <> a /\ f <> b /\ f <> c /\ f <> d /\ f <> e.
Proof. intros H. repeat (apply NoDup_cons in H as [? H]). set_solver. Qed.

Lemma header_text_no_cr (hc : string) : mem_char CR (join (readlines hc) +:+ newline) = false.
Proof. rewrite mem_char_app, join_readlines. unfold translate_newlines. by rewrite translate_go_no_cr. Qed.

(** C8: on a first run, when the declared zone file does not exist yet,
    [backup] raises [FileNotFoundError]: the run ends with status 1 and
    writes nothing, so the zone files are never created. *)
Theorem main_first_run_fails (w : world) (cfg : config) (hc : string) :
  readConfig w = Ok cfg w ->
  files w !! header_conf = Some hc ->
  files w !! zoneFile cfg = None ->
  main w = Err (FileNotFoundError (zoneFile cfg)) w /\ exit_status (main w) = 1.
Proof.
  intros Hcfg Hhc Hz.
  assert (E : main w = Err (FileNotFoundError (zoneFile cfg)) w).
  { unfold main, bind at 1. rewrite Hcfg. unfold bind at 1, readHeader, fd_readlines.
    rewrite Hhc. unfold bind at 1. by rewrite backup_raises. }
  by rewrite E.
Qed.

(** The frame of a run, against the generator contract: the backups,
    then the files the two generators promise to confine themselves to. *)
Lemma main_modifies `{GZ : ZoneGenerator createZoneFile} `{GR : ZoneGenerator createReverseZoneFile}
    (w : world) (cfg : config) (q : string) :
  readConfig w = Ok cfg w ->
  q ∉ [zone_bak; reverse_bak] ++ [zoneFile cfg] ++ [reverseZoneFile cfg] ->
  files (final_world (main w)) !! q = files w !! q.
Proof.
  intros Hcfg Hq. unfold main, bind at 1. rewrite Hcfg. cbn beta iota.
  apply (fun H : modifies ([zone_bak; reverse_bak] ++ [zoneFile cfg] ++ [reverseZoneFile cfg])
                   (bind readHeader _) => H w q Hq).
  unfold readHeader. auto 10 with dns.
Qed.

(** C9: a run changes no file but the two backups and the two zone
    files its configuration names, whether it completes, stops on a
    missing host, or raises. *)
Theorem main_frame (w : world) (cfg : config) (q : string) :
  readConfig w = Ok cfg w ->
  q <> zone_bak -> q <> reverse_bak -> q <> zoneFile cfg -> q <> reverseZoneFile cfg ->
  files (final_world (main w)) !! q = files w !! q.
Proof. intros Hcfg ????. apply (main_modifies w cfg); [done |]. simpl. not_in_list. Qed.

(** C23: the header is read before anything is backed up: when
    [./header.conf] is missing the run raises [FileNotFoundError] on it,
    with status 1 and no file written. *)
Theorem main_missing_header (w : world) (cfg : config) :
  readConfig w = Ok cfg w ->
  files w !! header_conf = None ->
  main w = Err (FileNotFoundError header_conf) w /\ exit_status (main w) = 1.
Proof.
  intros Hcfg Hhc.
  assert (E : main w = Err (FileNotFoundError header_conf) w).
  { unfold main, bind at 1. rewrite Hcfg. unfold bind at 1. by rewrite readHeader_missing. }
  by rewrite E.
Qed.

(** ** Witnesses *)

Lemma main_ok_witness :
  main (scenario_world (Some "old zone")) =
    Ok tt (set_file "/tmp/r"
             (join (readlines example_header) +:+ newline +:+
              join (map reverse_record (hosts example_config)))
           (set_file "/tmp/z"
             (join (readlines example_header) +:+ newline +:+
              join (zone_lines (domains example_config) (hosts example_config)))
           (backed_up "old zone" "old reverse" (scenario_world (Some "old zone"))))).
Proof.
  apply (main_ok (scenario_world (Some "old zone")) example_config example_header
           "old zone" "old reverse"); vm_compute; try reflexivity; repeat constructor.
Defined.

Lemma main_mismatch_witness :
  main mismatch_world =
    Err SystemExit
      (mkWorld (<["/tmp/z" := join (readlines example_header) +:+ newline +:+
                    join (zone_lines (domains mismatch_config) (hosts mismatch_config)) +:+
                    domain_line (Entry "example.org." "IN" "NS")]>
                  (files (backed_up "old zone" "old reverse" mismatch_world)))
               (stdout mismatch_world ++ [index_msg; zone_hint])).
Proof.
  apply (main_mismatch mismatch_world mismatch_config example_header "old zone" "old reverse");
    vm_compute; reflexivity.
Defined.

Lemma main_first_run_fails_witness :
  main (scenario_world None) = Err (FileNotFoundError "/tmp/z") (scenario_world None) /\
  exit_status (main (scenario_world None)) = 1.
Proof.
  apply (main_first_run_fails (scenario_world None) example_config example_header);
    vm_compute; reflexivity.
Defined.

(** [host.conf] is left alone by a run. *)
Lemma main_frame_witness :
  files (final_world (main (scenario_world (Some "old zone")))) !! host_conf =
    Some example_host_conf.
Proof.
  rewrite (main_frame (scenario_world (Some "old zone")) example_config host_conf);
    first [vm_compute; reflexivity | discriminate].
Defined.

(** The configuration alone, with no [header.conf]. *)
Lemma main_missing_header_witness :
  main (mkWorld (<[host_conf := example_host_conf]> ∅) []) =
    Err (FileNotFoundError header_conf) (mkWorld (<[host_conf := example_host_conf]> ∅) []) /\
  exit_status (main (mkWorld (<[host_conf := example_host_conf]> ∅) [])) = 1.
Proof.
  apply (main_missing_header _ example_config); vm_compute; reflexivity.
Defined.

Section Rerun.
Context (w : world) (cfg : config) (hc cz cr : string).
Hypothesis Hcfg : readConfig w = Ok cfg w.
Hypothesis Hhc : files w !! header_conf = Some hc.
Hypothesis Hz : files w !! zoneFile cfg = Some cz.
Hypothesis Hr : files (set_file zone_bak (translate_newlines cz) w) !! reverseZoneFile cfg = Some cr.
Hypothesis Hlen : length (domains cfg) <= length (hosts cfg).
Hypothesis Hrev : Forall (fun h => has_reverse h = true) (hosts cfg).
Hypothesis Hnd : NoDup [host_conf; header_conf; zone_bak; reverse_bak; zoneFile cfg; reverseZoneFile cfg].

Let w1 : world :=
  set_file (reverseZoneFile cfg) (reverse_text hc cfg)
    (set_file (zoneFile cfg) (zone_text hc cfg) (backed_up cz cr w)).

Lemma zone_text_id : translate_newlines (zone_text hc cfg) = zone_text hc cfg.
Proof.
  apply translate_go_id. destruct (readConfig_fields_ok _ _ _ Hcfg) as (_ & _ & Hh & Hd).
  unfold zone_text. by rewrite str_app_assoc, mem_char_app, header_text_no_cr, zone_text_no_cr.
Qed.

Lemma reverse_text_id : translate_newlines (reverse_text hc cfg) = reverse_text hc cfg.
Proof.
  apply translate_go_id. destruct (readConfig_fields_ok _ _ _ Hcfg) as (_ & _ & Hh & _).
  unfold reverse_text. by rewrite str_app_assoc, mem_char_app, header_text_no_cr, reverse_text_no_cr.
Qed.

Lemma first_run : main w = Ok tt w1.
Proof. by rewrite (main_run w cfg hc cz cr Hcfg Hhc Hz Hr). Qed.

Lemma second_run :
  main w1 = Ok tt (set_file reverse_bak (reverse_text hc cfg)
                    (set_file zone_bak (zone_text hc cfg) w1)).
Proof.
  destruct (nodup_paths _ _ _ _ _ _ Hnd) as (Hz1 & Hz2 & Hz3 & Hz4 & Hr1 & Hr2 & Hr3 & Hr4 & Hzr).
  assert (Hcfg1 : readConfig w1 = Ok cfg w1).
  { apply (readConfig_local w); [| done]. unfold w1, backed_up, set_file; simpl.
    by rewrite !lookup_insert_ne by first [congruence | discriminate]. }
  assert (Hhc1 : files w1 !! header_conf = Some hc).
  { unfold w1, backed_up, set_file; simpl. by rewrite !lookup_insert_ne by first [congruence | discriminate]. }
  assert (Hz' : files w1 !! zoneFile cfg = Some (zone_text hc cfg)).
  { unfold w1, set_file; simpl. rewrite lookup_insert_ne by first [congruence | discriminate].
    by rewrite lookup_insert_eq. }
  assert (Hr' : files (set_file zone_bak (translate_newlines (zone_text hc cfg)) w1)
                  !! reverseZoneFile cfg = Some (reverse_text hc cfg)).
  { unfold w1, set_file; simpl. rewrite lookup_insert_ne by first [congruence | discriminate].
    by rewrite lookup_insert_eq. }
  rewrite (main_run w1 cfg hc _ _ Hcfg1 Hhc1 Hz' Hr') by done.
  unfold backed_up. rewrite zone_text_id, reverse_text_id. f_equal.
  unfold w1, set_file; simpl. f_equal. apply map_eq. intros k.
  rewrite !lookup_insert.
  repeat case_decide; subst; first [reflexivity | congruence | discriminate].
Qed.
End Rerun.

(** C26: re-running the script on the files a successful run left
    rewrites only the two backups, which then hold that run's zone
    files; the zone files themselves stay as they were. *)
Theorem main_rerun_stable (w : world) (cfg : config) (hc cz cr : string) :
  readConfig w = Ok cfg w ->
  files w !! header_conf = Some hc ->
  files w !! zoneFile cfg = Some cz ->
  files (set_file zone_bak (translate_newlines cz) w) !! reverseZoneFile cfg = Some cr ->
  length (domains cfg) <= length (hosts cfg) ->
  Forall (fun h => has_reverse h = true) (hosts cfg) ->
  NoDup [host_conf; header_conf; zone_bak; reverse_bak; zoneFile cfg; reverseZoneFile cfg] ->
  exists w1, main w = Ok tt w1 /\
    main w1 = Ok tt (set_file reverse_bak (reverse_text hc cfg)
                      (set_file zone_bak (zone_text hc cfg) w1)).
Proof.
  intros Hcfg Hhc Hz Hr Hlen Hrev Hnd. eexists. split.
  - exact (first_run w cfg hc cz cr Hcfg Hhc Hz Hr Hlen Hrev).
  - by apply second_run.
Qed.

Lemma main_rerun_stable_witness :
  exists w1, main (scenario_world (Some "old zone")) = Ok tt w1 /\
    main w1 = Ok tt (set_file reverse_bak (reverse_text example_header example_config)
                      (set_file zone_bak (zone_text example_header example_config) w1)).
Proof.
  apply (main_rerun_stable (scenario_world (Some "old zone")) example_config example_header
           "old zone" "old reverse"); try (vm_compute; reflexivity).
  - vm_compute. repeat constructor.
  - refine (bool_decide_unpack _ _). vm_compute. exact I.
Defined.

End Main.
